(** * neurodynex.tools.plot_tools: window, selection and axis-limit logic

  A shallow embedding of [src/neurodynex/tools/plot_tools.py].  The three
  public functions of the module ([plot_voltage_and_current_traces],
  [plot_network_activity], [plot_ISI_distribution]) are translated
  statement by statement.

  Modelling conventions.
  - A brian2 [Quantity] is a rational number holding its value in SI base
    units (seconds, volts, amperes, hertz); dividing by a unit such as
    [b2.ms] is a division by the rational value of that unit.  Python
    floats are idealised as exact rationals ([Q], compared with [==]).
  - A Python exception is a value of [exn]; a function that may raise
    returns a [result].
  - The matplotlib surface is a list of draw calls per axes, threaded
    through the helpers in the order the source issues them.
  - A [dict] is a [gmap]; a Python list or a numpy array of neuron
    indices is a [list Z]. *)

From Stdlib Require Import ZArith QArith Qround Lia Lqa String.
From stdpp Require Import base list gmap sorting strings.

Local Open Scope Q_scope.

(** ** Python runtime *)

Inductive exn : Type :=
| AssertionError (msg : string)
| ValueError
| IndexError
| KeyError.

Inductive result (A : Type) : Type :=
| Ok (a : A)
| Raise (e : exn).
Global Arguments Ok {A} a.
Global Arguments Raise {A} e.

Global Instance result_ret : MRet result := λ A a, Ok a.
Global Instance result_bind : MBind result :=
  λ A B f m, match m with Ok a => f a | Raise e => Raise e end.

(** [x > y] on floats. *)
Definition py_gt (x y : Q) : bool := negb (Qle_bool x y).
(** [x < y] on floats. *)
Definition py_lt (x y : Q) : bool := negb (Qle_bool y x).

(** The builtin [max(a, b)]: [b] replaces [a] only when [b > a]. *)
Definition py_max2 (a b : Q) : Q := if py_gt b a then b else a.

Fixpoint py_max_from (cur : Q) (l : list Q) : Q :=
  match l with
  | [] => cur
  | x :: l' => py_max_from (if py_gt x cur then x else cur) l'
  end.

Fixpoint py_min_from (cur : Q) (l : list Q) : Q :=
  match l with
  | [] => cur
  | x :: l' => py_min_from (if py_lt x cur then x else cur) l'
  end.

(** The builtin [max(iterable)]: [ValueError] on an empty iterable. *)
Definition py_max (l : list Q) : result Q :=
  match l with
  | [] => Raise ValueError
  | x :: l' => Ok (py_max_from x l')
  end.

(** The builtin [min(iterable)]. *)
Definition py_min (l : list Q) : result Q :=
  match l with
  | [] => Raise ValueError
  | x :: l' => Ok (py_min_from x l')
  end.

(** [int(x)] on a float: truncation towards zero. *)
Definition py_int (x : Q) : Z := Z.quot (Qnum x) (Z.pos (Qden x)).

(** [l[i]] on a list or a one-dimensional array: a negative index counts
    from the end, an index out of range raises [IndexError]. *)
Definition py_getitem {A : Type} (l : list A) (i : Z) : result A :=
  let n := Z.of_nat (length l) in
  let j := if (i <? 0)%Z then (n + i)%Z else i in
  if (j <? 0)%Z then Raise IndexError
  else match l !! Z.to_nat j with
       | Some a => Ok a
       | None => Raise IndexError
       end.

(** [d[k]] on a dict: [KeyError] when the key is absent. *)
Definition py_dict_getitem {A : Type} (d : gmap Z A) (k : Z) : result A :=
  match d !! k with
  | Some a => Ok a
  | None => Raise KeyError
  end.

(** [range(n)]. *)
Definition py_range (n : nat) : list Z := Z.of_nat <$> seq 0 n.

(** [l[1:-1]]. *)
Definition py_slice_1_m1 {A : Type} (l : list A) : list A := removelast (tail l).

(** [l[:k]]. *)
Definition py_slice_to {A : Type} (k : nat) (l : list A) : list A := take k l.


(** ** numpy *)
Module Np.

(** [numpy.sort] on an integer array. *)
Definition sort (l : list Z) : list Z := merge_sort Z.le l.

(** [numpy.linspace(start, stop, num)] with the default [endpoint=True]:
    [step = (stop - start) / (num - 1)], the samples are
    [i * step + start], and the last sample is set to [stop]. *)
Definition linspace (start stop : Q) (num : nat) : list Q :=
  let div := (num - 1)%nat in
  let delta := stop - start in
  let y := (λ i : nat, inject_Z (Z.of_nat i)) <$> seq 0 num in
  let y := if (0 <? div)%nat
           then (λ yi, yi * (delta / inject_Z (Z.of_nat div)) + start) <$> y
           else (λ yi, yi * delta + start) <$> y in
  if (1 <? num)%nat then removelast y ++ [stop] else y.

(** [(ts >= t_min) & (ts <= t_max)]. *)
Definition within (t_min t_max : Q) (ts : list Q) : list bool :=
  (λ t, Qle_bool t_min t && Qle_bool t t_max) <$> ts.

Fixpoint select {A : Type} (mask : list bool) (x : list A) : list A :=
  match mask, x with
  | b :: mask', a :: x' => if b then a :: select mask' x' else select mask' x'
  | _, _ => []
  end.

(** [x[mask]] with a boolean mask: [IndexError] when the lengths differ. *)
Definition getitem_mask {A : Type} (x : list A) (mask : list bool) : result (list A) :=
  if (length mask =? length x)%nat then Ok (select mask x) else Raise IndexError.

(** [numpy.where(mask)]: the positions that hold [True]. *)
Definition where_ (mask : list bool) : list nat := select mask (seq 0 (length mask)).

(** [r * numpy.ones(shape)] for a one-dimensional shape. *)
Definition times_ones (r : Q) (len : nat) : list Q := replicate len r.

End Np.

(** ** brian2: units and monitors *)
Module B2.

Definition ms : Q := 1 # 1000.
Definition mV : Q := 1 # 1000.
Definition amp : Q := 1.
Definition Hz : Q := 1.

(** [PopulationRateMonitor]: its time stamps, its rates, and its method
    [smooth_rate(window, width)], which belongs to brian2. *)
Record RateMon : Type := {
  rate_t : list Q;
  rate_rate : list Q;
  smooth_rate : string → Q → list Q
}.

(** [SpikeMonitor]: [spike_trains()] maps a neuron index to its spike
    times. *)
Record SpikeMon : Type := {
  spike_trains : gmap Z (list Q)
}.

(** [StateMonitor] that records [v]: the recorded indices, the time
    stamps, and one trace per recorded index. *)
Record StateMon : Type := {
  record : list Z;
  state_t : list Q;
  state_v : list (list Q)
}.

(** [monitor[idx].v]: [IndexError] when [idx] has not been recorded. *)
Definition getitem_v (m : StateMon) (idx : Z) : result (list Q) :=
  match list_find (λ r, r = idx) (record m) with
  | Some (pos, _) =>
      match state_v m !! pos with
      | Some tr => Ok tr
      | None => Raise IndexError
      end
  | None => Raise IndexError
  end.

(** [TimedArray]: [current(t, 0)] evaluates column 0 at time [t]. *)
Record TimedArr : Type := {
  call : Q → Q
}.

End B2.

(** Values a caller can pass for a dynamically typed argument. *)
Inductive pyval : Type :=
| PyNone
| PyInt (z : Z)
| PyFloat (q : Q)
| PyStr (s : string)
| PyList (l : list Z)
| PyTuple (l : list Z)
| PyNdarray (l : list Z)
| PopulationRateMonitor (m : B2.RateMon)
| SpikeMonitor (m : B2.SpikeMon)
| StateMonitor (m : B2.StateMon)
| TimedArray (a : B2.TimedArr).

(** ** matplotlib: draw calls *)
Module Plt.

(** A draw call with the arguments that matter here: [Plot] carries the
    format string or colour and the line width when one is given, [Scatter]
    the colour and the marker size, [Ylabel] and [Title] their text and the
    values formatted into it. *)
Inductive draw : Type :=
| Plot (xs ys : list Q) (style : string) (lw : option Q)
| Scatter (xs ys : list Q) (c : string) (s : Z)
| Axhline (y : Q)
| Ylim (lo hi : Q)
| Xlabel (s : string)
| Ylabel (s : string) (args : list Q)
| Title (s : string) (args : list Q)
| Suptitle (s : string)
| Legend (labels : list string) (loc : Z)
| Grid
| Hist (data : list Q) (bins : Z)
| Show.

Definition axes : Type := list draw.

(** The y-limits in force on an axes: those of the last [ylim] call. *)
Fixpoint get_ylim (ax : axes) : option (Q * Q) :=
  match ax with
  | [] => None
  | d :: ax' =>
      match get_ylim ax' with
      | Some w => Some w
      | None => match d with Ylim lo hi => Some (lo, hi) | _ => None end
      end
  end.

(** The line plots of an axes, in drawing order. *)
Fixpoint lines (ax : axes) : list (list Q * list Q * string) :=
  match ax with
  | [] => []
  | Plot xs ys style _ :: ax' => (xs, ys, style) :: lines ax'
  | _ :: ax' => lines ax'
  end.

(** The scatter plots of an axes, in drawing order. *)
Fixpoint scatters (ax : axes) : list (list Q * list Q * string * Z) :=
  match ax with
  | [] => []
  | Scatter xs ys c s :: ax' => (xs, ys, c, s) :: scatters ax'
  | _ :: ax' => scatters ax'
  end.

End Plt.
Import Plt.

(** ** plot_voltage_and_current_traces *)

(** The two panels of the figure ([plt.subplot(211)], [plt.subplot(212)])
    and the calls addressed to the figure itself. *)
Record vc_figure : Type := {
  axis_c : axes;
  axis_v : axes;
  on_figure : list draw
}.

Definition plot_voltage_and_current_traces
    (voltage_monitor current : pyval) (title : option string)
    (firing_threshold : option Q) (do_show_plot : bool) (legend_location : Z)
  : result vc_figure :=
  match voltage_monitor with
  | StateMonitor vm =>
    match current with
    | TimedArray cur =>
        let time_values_ms := (λ t, t / B2.ms) <$> B2.state_t vm in
        (* current *)
        let c := B2.call cur <$> B2.state_t vm in
        max_current ← py_max c;
        min_current ← py_min c;
        let margin := (105 # 100) * (max_current - min_current) in
        let axis_c := [Plot time_values_ms c "r" (Some 2)] in
        let axis_c :=
          if py_gt margin 0
          then axis_c ++ [Ylim ((min_current - margin) / B2.amp)
                               ((max_current + margin) / B2.amp)]
          else axis_c in
        let axis_c :=
          axis_c ++ [Ylabel "Input current [A] \n min: {0} \nmax: {1}"
                            [min_current; max_current]; Grid] in
        v0 ← B2.getitem_v vm 0;
        let axis_v := [Plot time_values_ms ((λ v, v / B2.mV) <$> v0) "" (Some 2)] in
        axis_v ←
          match firing_threshold with
          | Some thr =>
              t_first ← py_getitem time_values_ms 0;
              t_last ← py_getitem time_values_ms (-1);
              Ok (axis_v ++ [Plot [t_first; t_last]
                                  [thr / B2.mV; thr / B2.mV] "r--" (Some 2)])
          | None => Ok axis_v
          end;
        max_val ← py_max v0;
        let max_val :=
          match firing_threshold with
          | Some thr => py_max2 max_val thr
          | None => max_val
          end in
        min_val ← py_min v0;
        let margin := (5 # 100) * (max_val - min_val) in
        let axis_v :=
          axis_v ++ [Ylim ((min_val - margin) / B2.mV) ((max_val + margin) / B2.mV);
                     Xlabel "t [ms]";
                     Ylabel "membrane voltage [mV]\n min: {0}\n max: {1}"
                            [min_val; max_val];
                     Grid] in
        let axis_v :=
          match firing_threshold with
          | Some _ => axis_v ++ [Legend ["vm"; "firing threshold"] legend_location]
          | None => axis_v
          end in
        let fig := match title with Some s => [Suptitle s] | None => [] end in
        let fig := if do_show_plot then fig ++ [Show] else fig in
        Ok {| axis_c := axis_c; axis_v := axis_v; on_figure := fig |}
    | _ => Raise (AssertionError "current is not of type TimedArray")
    end
  | _ => Raise (AssertionError "voltage_monitor is not of type StateMonitor")
  end.

(** ** plot_network_activity *)

(** The panels returned by the function; [ax_voltage] is [None] when no
    voltage monitor is provided. *)
Record figure : Type := {
  ax_raster : axes;
  ax_rate : axes;
  ax_voltage : option axes
}.

(** Lines 116-126: the spike trains to plot.  [all_spike_trains.keys()] is
    the list of the keys of the dict, which [numpy.sort] turns into an
    array. *)
Definition select_spike_train_idx_list
    (spike_train_idx_list : option (list Z))
    (voltage_monitor : option B2.StateMon)
    (all_spike_trains : gmap Z (list Q)) : list Z :=
  match spike_train_idx_list with
  | None =>
      let l :=
        match voltage_monitor with
        | Some vm => Np.sort (B2.record vm)
        | None => Np.sort (fst <$> map_to_list all_spike_trains)
        end in
      if (500 <? length l)%nat then py_slice_to 500 l else l
  | Some l => l
  end.

(** Lines 128-136: the plotted interval, in milliseconds. *)
Definition default_interval
    (rate_monitor : B2.RateMon) (t_min t_max : option Q) : result (Q * Q) :=
  t_max ← match t_max with
          | None => py_max ((λ t, t / B2.ms) <$> B2.rate_t rate_monitor)
          | Some t => Ok (t / B2.ms)
          end;
  let t_min := match t_min with
               | None => py_max2 0 (t_max - 100)
               | Some t => t / B2.ms
               end in
  Ok (t_min, t_max).

(** Lines 219-220: the rows to highlight. *)
Definition highlighted_rows (nr_neurons : nat) (N_highlighted_spiketrains : Z) : list Z :=
  let fract :=
    py_slice_1_m1 (Np.linspace 0 1 (Z.to_nat (N_highlighted_spiketrains + 2))) in
  (λ v, py_int (inject_Z (Z.of_nat nr_neurons) * v)) <$> fract.

(** The nested helpers; the variables of the section are the names they
    capture from the enclosing call. *)
Section Helpers.

Variable rate_monitor : B2.RateMon.
Variable voltage_monitor : B2.StateMon.
Variable all_spike_trains : gmap Z (list Q).
Variable spike_train_idx_list : list Z.
Variables t_min t_max : Q.

Definition get_spike_train_ts_indices (spike_train : list Q) : list nat * list Q :=
  let ts := (λ t, t / B2.ms) <$> spike_train in
  let spike_within_time_window := Np.within t_min t_max ts in
  let idx_spikes := Np.where_ spike_within_time_window in
  let ts_spikes := omap (λ i, ts !! i) idx_spikes in
  (idx_spikes, ts_spikes).

Fixpoint plot_raster_loop (idxs : list Z) (neuron_counter : Z) (ax : axes)
  : result (Z * axes) :=
  match idxs with
  | [] => Ok (neuron_counter, ax)
  | neuron_index :: idxs' =>
      spike_train ← py_dict_getitem all_spike_trains neuron_index;
      let ts_spikes := (get_spike_train_ts_indices spike_train).2 in
      plot_raster_loop idxs' (neuron_counter + 1)
        (ax ++ [Scatter ts_spikes
                        (Np.times_ones (inject_Z neuron_counter) (length ts_spikes))
                        "k" 15])
  end.

Definition plot_raster (ax : axes) : result axes :=
  r ← plot_raster_loop spike_train_idx_list 0%Z ax;
  Ok (r.2 ++ [Ylim 0 (inject_Z r.1)]).

Fixpoint highlight_raster_loop (i : nat) (neuron_idxs : list Z) (ax : axes)
  : result axes :=
  match neuron_idxs with
  | [] => Ok ax
  | raster_plot_index :: rest =>
      let color := if (i =? 0)%nat then "r" else "k" in
      population_index ← py_getitem spike_train_idx_list raster_plot_index;
      spike_train ← py_dict_getitem all_spike_trains population_index;
      let ts_spikes := (get_spike_train_ts_indices spike_train).2 in
      highlight_raster_loop (S i) rest
        (ax ++ [Axhline (inject_Z raster_plot_index);
                Scatter ts_spikes
                        (Np.times_ones (inject_Z raster_plot_index) (length ts_spikes))
                        color 144])
  end.

Definition highlight_raster (neuron_idxs : list Z) (ax : axes) : result axes :=
  ax ← highlight_raster_loop 0 neuron_idxs ax;
  Ok (ax ++ [Ylabel "neuron #" []; Title "Raster Plot (random subset)" []]).

Definition plot_population_activity (ax : axes) : result axes :=
  let ts := (λ t, t / B2.ms) <$> B2.rate_t rate_monitor in
  let idx_rate := Np.within t_min t_max ts in
  let smoothed_rates :=
    (λ r, r / B2.Hz) <$> B2.smooth_rate rate_monitor "flat" ((5 # 10) * B2.ms) in
  xs ← Np.getitem_mask ts idx_rate;
  ys ← Np.getitem_mask smoothed_rates idx_rate;
  Ok (ax ++ [Plot xs ys "" None; Ylabel "A(t) [Hz]" []; Title "Population Activity" []]).

Fixpoint plot_voltage_traces_loop (ts : list Q) (idx_voltage : list bool)
    (i : nat) (voltage_traces_i : list Z) (ax : axes) : result axes :=
  match voltage_traces_i with
  | [] => Ok ax
  | raster_plot_index :: rest =>
      let color := if (i =? 0)%nat then "r" else ".7" in
      population_index ← py_getitem spike_train_idx_list raster_plot_index;
      xs ← Np.getitem_mask ts idx_voltage;
      v ← B2.getitem_v voltage_monitor population_index;
      ys ← Np.getitem_mask v idx_voltage;
      plot_voltage_traces_loop ts idx_voltage (S i) rest
        (ax ++ [Plot xs ((λ y, y / B2.mV) <$> ys) color (Some 1);
                Ylabel "V(t) [mV]" []; Title "Voltage Traces" []])
  end.

Definition plot_voltage_traces (voltage_traces_i : list Z) (ax : axes) : result axes :=
  let ts := (λ t, t / B2.ms) <$> B2.state_t voltage_monitor in
  let idx_voltage := Np.within t_min t_max ts in
  plot_voltage_traces_loop ts idx_voltage 0 voltage_traces_i ax.

End Helpers.

(** [voltage_monitor is None or isinstance(voltage_monitor, StateMonitor)]. *)
Definition optional_StateMonitor (v : pyval) : option (option B2.StateMon) :=
  match v with
  | PyNone => Some None
  | StateMonitor m => Some (Some m)
  | _ => None
  end.

(** [spike_train_idx_list is None or isinstance(spike_train_idx_list, list)]. *)
Definition optional_list (v : pyval) : option (option (list Z)) :=
  match v with
  | PyNone => Some None
  | PyList l => Some (Some l)
  | _ => None
  end.

(** The function after its four assertions. *)
Definition network_activity
    (rate_monitor : B2.RateMon) (spike_monitor : B2.SpikeMon)
    (voltage_monitor : option B2.StateMon) (spike_train_idx_list : option (list Z))
    (t_min t_max : option Q) (N_highlighted_spiketrains : Z) : result figure :=
  let all_spike_trains := B2.spike_trains spike_monitor in
  let spike_train_idx_list :=
    select_spike_train_idx_list spike_train_idx_list voltage_monitor all_spike_trains in
  w ← default_interval rate_monitor t_min t_max;
  let t_min := w.1 in
  let t_max := w.2 in
  ax_raster ← plot_raster all_spike_trains spike_train_idx_list t_min t_max [];
  ax_rate ← plot_population_activity rate_monitor t_min t_max [];
  let nr_neurons := length spike_train_idx_list in
  let highlighted_neurons_i :=
    if (0 <? N_highlighted_spiketrains)%Z
    then highlighted_rows nr_neurons N_highlighted_spiketrains
    else [] in
  ax_raster ←
    (if (0 <? N_highlighted_spiketrains)%Z
     then highlight_raster all_spike_trains spike_train_idx_list t_min t_max
            highlighted_neurons_i ax_raster
     else Ok ax_raster);
  match voltage_monitor with
  | Some vm =>
      let traces_i :=
        if (N_highlighted_spiketrains =? 0)%Z
        then py_range nr_neurons
        else highlighted_neurons_i in
      ax_voltage ← plot_voltage_traces vm spike_train_idx_list t_min t_max traces_i [];
      Ok {| ax_raster := ax_raster; ax_rate := ax_rate;
            ax_voltage := Some (ax_voltage ++ [Xlabel "t [ms]"]) |}
  | None =>
      Ok {| ax_raster := ax_raster; ax_rate := ax_rate ++ [Xlabel "t [ms]"];
            ax_voltage := None |}
  end.

Definition plot_network_activity
    (rate_monitor spike_monitor voltage_monitor spike_train_idx_list : pyval)
    (t_min t_max : option Q) (N_highlighted_spiketrains : Z) : result figure :=
  match rate_monitor with
  | PopulationRateMonitor rm =>
    match spike_monitor with
    | SpikeMonitor sm =>
      match optional_StateMonitor voltage_monitor with
      | Some vm =>
        match optional_list spike_train_idx_list with
        | Some idxs =>
            network_activity rm sm vm idxs t_min t_max N_highlighted_spiketrains
        | None => Raise (AssertionError "spike_train_idx_list is not of type list")
        end
      | None => Raise (AssertionError "voltage_monitor is not of type StateMonitor")
      end
    | _ => Raise (AssertionError "spike_monitor is not of type SpikeMonitor")
    end
  | _ => Raise (AssertionError "rate_monitor  is not of type PopulationRateMonitor")
  end.

(** ** plot_ISI_distribution *)

(** What [spike_tools.get_spike_train_stats] returns, as far as this module
    reads it. *)
Record SpikeTrainStats : Type := {
  all_ISI : list Q;
  CV : Q
}.

Section ISI.

(** [neurodynex.tools.spike_tools.get_spike_train_stats], which this module
    imports and calls. *)
Variable get_spike_train_stats : B2.SpikeMon → SpikeTrainStats.

Definition plot_ISI_distribution
    (spike_monitor : B2.SpikeMon) (hist_nr_bins : Z) (hist_max_ISI : Q) : axes :=
  let stats := get_spike_train_stats spike_monitor in
  let isi_ms := (λ d, d / B2.ms) <$> all_ISI stats in
  let filtered_is := (λ d, Qle_bool d (hist_max_ISI / B2.ms)) <$> isi_ms in
  let idx_isi := Np.where_ filtered_is in
  let isi_ms := omap (λ i, isi_ms !! i) idx_isi in
  [Hist isi_ms hist_nr_bins;
   Title "ISI histogram, CV={}" [CV stats];
   Xlabel "ISI [ms]"].

End ISI.

(** ** Notions used by the specification *)

(** A sequence type, among the values a caller can pass: the builtin
    sequences [list], [tuple] and [str]. *)
Definition is_sequence_type (v : pyval) : bool :=
  match v with
  | PyList _ | PyTuple _ | PyStr _ => true
  | _ => false
  end.

(** The y-range in force on an axes contains [y]. *)
Definition ylim_contains (ax : axes) (y : Q) : Prop :=
  ∃ lo hi, get_ylim ax = Some (lo, hi) ∧ lo <= y ∧ y <= hi.

(** The samples of a trace that fall into the window [w], in mV, as the
    voltage panel draws them. *)
Definition windowed_mV (vm : B2.StateMon) (w : Q * Q) (tr : list Q) : list Q :=
  (λ y, y / B2.mV) <$>
    Np.select (Np.within w.1 w.2 ((λ t, t / B2.ms) <$> B2.state_t vm)) tr.

(** Every trace recorded by the monitor is drawn on the axes. *)
Definition plots_every_recorded_trace
    (vm : B2.StateMon) (w : Q * Q) (ax : axes) : Prop :=
  ∀ n tr, n ∈ B2.record vm → B2.getitem_v vm n = Ok tr →
    ∃ xs style, (xs, windowed_mV vm w tr, style) ∈ lines ax.

(** The call raised an [AssertionError]. *)
Definition is_assertion_error {A : Type} (r : result A) : bool :=
  match r with
  | Raise (AssertionError _) => true
  | _ => false
  end.

(** * Sample inputs *)

(** A rate series from 0 to 250 ms. *)
Definition rate_250ms : B2.RateMon :=
  {| B2.rate_t := [0; 1 # 8; 1 # 4];
     B2.rate_rate := [0; 40; 20];
     B2.smooth_rate := λ _ _, [0; 30; 25] |}.

(** Five neurons, numbered 1 to 5, with their spike times in seconds. *)
Definition five_trains : B2.SpikeMon :=
  {| B2.spike_trains :=
       list_to_map [(1%Z, [2 # 10]); (2%Z, [1 # 100; 21 # 100]); (3%Z, []);
                    (4%Z, [1 # 4]); (5%Z, [24 # 100])] |}.


(** A monitor that records neuron 0 over 2 ms: 0 mV, 10 mV, 5 mV. *)
Definition trace_0_to_10mV : B2.StateMon :=
  {| B2.record := [0%Z];
     B2.state_t := [0; 1 # 1000; 2 # 1000];
     B2.state_v := [[0; 10 # 1000; 5 # 1000]] |}.

(** A constant current of 1 nA. *)
Definition flat_current : B2.TimedArr :=
  {| B2.call := λ _, 1 # 1000000000 |}.

(** A current that rises by 1 nA per ms. *)
Definition ramp_current : B2.TimedArr :=
  {| B2.call := λ t, t * (1 # 1000000) |}.


(** A monitor that records neurons 1, 2 and 3, each at a constant voltage
    of its own. *)
Definition three_traces : B2.StateMon :=
  {| B2.record := [1; 2; 3]%Z;
     B2.state_t := [0; 1 # 8; 1 # 4];
     B2.state_v := [[1; 1; 1]; [2; 2; 2]; [3; 3; 3]] |}.

(** 501 neurons, numbered 0 to 500, none of which spikes. *)
Definition many_trains : B2.SpikeMon :=
  {| B2.spike_trains :=
       list_to_map ((λ n : nat, (Z.of_nat n, [])) <$> seq 0 501) |}.

(** A monitor that records these 501 neurons at one time stamp, neuron [n]
    at [n] volts. *)
Definition many_traces : B2.StateMon :=
  {| B2.record := Z.of_nat <$> seq 0 501;
     B2.state_t := [1 # 4];
     B2.state_v := (λ n : nat, [inject_Z (Z.of_nat n)]) <$> seq 0 501 |}.

(** * Expected drawings *)

(** The row of one spike train in the raster: its spike times (in ms) that
    fall into the window [w], at height [row]. *)
Definition raster_row (w : Q * Q) (row : Z) (c : string) (s : Z)
    (spike_train : list Q) : draw :=
  let ts := List.filter (λ t, Qle_bool w.1 t && Qle_bool t w.2)
                        ((λ t, t / B2.ms) <$> spike_train) in
  Scatter ts (replicate (length ts) (inject_Z row)) c s.

(** The line of one voltage trace: the time stamps (in ms) and the samples
    (in mV) that fall into the window [w]; the first line of the panel is
    red, the others grey. *)
Definition trace_line (vm : B2.StateMon) (w : Q * Q) (j : nat) (tr : list Q)
  : list Q * list Q * string :=
  (Np.select (Np.within w.1 w.2 ((λ t, t / B2.ms) <$> B2.state_t vm))
             ((λ t, t / B2.ms) <$> B2.state_t vm),
   windowed_mV vm w tr,
   if (j =? 0)%nat then "r" else ".7").

(** The rows whose voltage traces are drawn. *)
Definition trace_rows (nr_neurons : nat) (N : Z) : list Z :=
  if (N =? 0)%Z then py_range nr_neurons
  else if (0 <? N)%Z then highlighted_rows nr_neurons N
  else [].


(** * Well-formed inputs *)

(** The conditions under which [plot_network_activity] returns once its
    arguments have passed the assertions: the interval can be derived, the
    smoothed rates align with the time stamps, every selected neuron has a
    spike train and (with a voltage monitor) a recorded trace aligned with
    the monitor's time stamps, and a positive highlight count comes with a
    non-empty selection. *)
Definition well_formed
    (rm : B2.RateMon) (sm : B2.SpikeMon) (vm : option B2.StateMon)
    (idxs : option (list Z)) (t_min t_max : option Q) (N : Z) : Prop :=
  let sel := select_spike_train_idx_list idxs vm (B2.spike_trains sm) in
  (t_max = None → B2.rate_t rm ≠ []) ∧
  length (B2.smooth_rate rm "flat" ((5 # 10) * B2.ms)) = length (B2.rate_t rm) ∧
  Forall (λ n, is_Some (B2.spike_trains sm !! n)) sel ∧
  match vm with
  | Some m =>
      Forall (λ n, ∃ tr, B2.getitem_v m n = Ok tr ∧
                         length tr = length (B2.state_t m)) sel
  | None => True
  end ∧
  ((0 < N)%Z → sel ≠ []).


(** * Further notions *)

(** Every exception the computation can raise satisfies [P]. *)
Definition raises_only {A : Type} (P : exn → Prop) (r : result A) : Prop :=
  ∀ e, r = Raise e → P e.

(** The data handed to the histograms of an axes, in drawing order. *)
Fixpoint hist_data (ax : axes) : list (list Q) :=
  match ax with
  | [] => []
  | Hist data _ :: ax' => data :: hist_data ax'
  | _ :: ax' => hist_data ax'
  end.


(** A time stamp lies in the window [w]. *)
Definition in_window (w : Q * Q) (t : Q) : bool :=
  Qle_bool w.1 t && Qle_bool t w.2.


(** A monitor whose time stamps carry no recorded neuron. *)
Definition nothing_recorded : B2.StateMon :=
  {| B2.record := []; B2.state_t := [0; 1 # 1000]; B2.state_v := [] |}.

(** * Properties *)

(** ** Comparisons, [max] and [min] *)

Lemma py_gt_true (x y : Q) : py_gt x y = true ↔ y < x.
Proof.
  unfold py_gt. rewrite negb_true_iff. split.
  - intros H. apply Qnot_le_lt. intros Hle.
    apply Qle_bool_iff in Hle. congruence.
  - intros H. destruct (Qle_bool x y) eqn:E; [|done].
    apply Qle_bool_iff in E. lra.
Qed.

Lemma py_gt_false (x y : Q) : py_gt x y = false ↔ x <= y.
Proof.
  unfold py_gt. rewrite negb_false_iff. apply Qle_bool_iff.
Qed.

Lemma py_lt_gt (x y : Q) : py_lt x y = py_gt y x.
Proof. reflexivity. Qed.

Lemma py_max2_cases (a b : Q) :
  (py_max2 a b = a ∧ b <= a) ∨ (py_max2 a b = b ∧ a < b).
Proof.
  unfold py_max2. destruct (py_gt b a) eqn:E.
  - right. split; [done|]. by apply py_gt_true.
  - left. split; [done|]. by apply py_gt_false.
Qed.

Lemma py_max_from_spec (l : list Q) : ∀ cur,
  In (py_max_from cur l) (cur :: l) ∧
  Forall (λ x, x <= py_max_from cur l) (cur :: l).
Proof.
  induction l as [|x l IH]; intros cur; simpl.
  - split; [by left|]. constructor; [lra|constructor].
  - destruct (IH (if py_gt x cur then x else cur)) as [Hin Hall].
    apply Forall_cons in Hall as [Hc Hl].
    destruct (py_gt x cur) eqn:E.
    + apply py_gt_true in E. split.
      * destruct Hin as [<-|Hin]; [right; by left|right; by right].
      * repeat constructor; [lra|lra|done].
    + apply py_gt_false in E. split.
      * destruct Hin as [<-|Hin]; [by left|right; by right].
      * repeat constructor; [lra|lra|done].
Qed.

Lemma py_min_from_spec (l : list Q) : ∀ cur,
  In (py_min_from cur l) (cur :: l) ∧
  Forall (λ x, py_min_from cur l <= x) (cur :: l).
Proof.
  induction l as [|x l IH]; intros cur; simpl.
  - split; [by left|]. constructor; [lra|constructor].
  - destruct (IH (if py_lt x cur then x else cur)) as [Hin Hall].
    apply Forall_cons in Hall as [Hc Hl].
    rewrite py_lt_gt in *. destruct (py_gt cur x) eqn:E.
    + apply py_gt_true in E. split.
      * destruct Hin as [<-|Hin]; [right; by left|right; by right].
      * repeat constructor; [lra|lra|done].
    + apply py_gt_false in E. split.
      * destruct Hin as [<-|Hin]; [by left|right; by right].
      * repeat constructor; [lra|lra|done].
Qed.

Lemma py_max_spec (l : list Q) :
  l ≠ [] → ∃ m, py_max l = Ok m ∧ In m l ∧ Forall (λ x, x <= m) l.
Proof.
  destruct l as [|x l]; [done|]. intros _.
  exists (py_max_from x l). split; [done|]. apply py_max_from_spec.
Qed.

Lemma py_min_spec (l : list Q) :
  l ≠ [] → ∃ m, py_min l = Ok m ∧ In m l ∧ Forall (λ x, m <= x) l.
Proof.
  destruct l as [|x l]; [done|]. intros _.
  exists (py_min_from x l). split; [done|]. apply py_min_from_spec.
Qed.

Lemma py_max_Ok_spec (l : list Q) (m : Q) :
  py_max l = Ok m → In m l ∧ Forall (λ x, x <= m) l.
Proof.
  destruct l as [|x l]; [done|]. intros [= <-]. apply py_max_from_spec.
Qed.

Lemma py_min_Ok_spec (l : list Q) (m : Q) :
  py_min l = Ok m → In m l ∧ Forall (λ x, m <= x) l.
Proof.
  destruct l as [|x l]; [done|]. intros [= <-]. apply py_min_from_spec.
Qed.

Lemma py_min_le_max (l : list Q) (lo hi : Q) :
  py_min l = Ok lo → py_max l = Ok hi → lo <= hi.
Proof.
  intros Hlo Hhi. apply py_min_Ok_spec in Hlo as [Hin _].
  apply py_max_Ok_spec in Hhi as [_ Hall].
  rewrite Forall_forall in Hall. apply Hall. by apply list_elem_of_In.
Qed.

Lemma sorted_le_last (l : list Q) (tl : Q) :
  StronglySorted Qle l → last l = Some tl → Forall (λ x, x <= tl) l.
Proof.
  induction 1 as [|x l Hs IH Hx]; intros Hl; [constructor|].
  destruct l as [|y l'].
  - injection Hl as <-. repeat constructor. lra.
  - rewrite last_cons_cons in Hl. specialize (IH Hl). constructor; [|done].
    apply last_Some_elem_of in Hl.
    rewrite Forall_forall in Hx. by apply Hx.
Qed.

(** ** The plotted interval *)

Lemma default_interval_derived (rm : B2.RateMon) (last_ms : Q) :
  py_max ((λ t, t / B2.ms) <$> B2.rate_t rm) = Ok last_ms →
  default_interval rm None None = Ok (py_max2 0 (last_ms - 100), last_ms).
Proof. intros H. unfold default_interval. by rewrite H. Qed.

(** C1: with a non-empty rate series, a missing [t_max] becomes the maximum
    time stamp of the series (its last one when the series ascends), a
    missing [t_min] becomes the larger of 0 and [t_max - 100] (in ms), and
    explicit bounds are taken as given, converted to ms; a series that ends
    at 250 ms gives the window from 150 ms to 250 ms. *)
Theorem C1_default_interval (rm : B2.RateMon) :
  B2.rate_t rm ≠ [] →
  ∃ last_ms : Q,
    py_max ((λ t, t / B2.ms) <$> B2.rate_t rm) = Ok last_ms ∧
    In last_ms ((λ t, t / B2.ms) <$> B2.rate_t rm) ∧
    Forall (λ t, t / B2.ms <= last_ms) (B2.rate_t rm) ∧
    (∀ tl, StronglySorted Qle (B2.rate_t rm) →
           last (B2.rate_t rm) = Some tl → last_ms == tl / B2.ms) ∧
    (∃ lo, default_interval rm None None = Ok (lo, last_ms) ∧
           (last_ms - 100 <= 0 → lo = 0) ∧
           (0 < last_ms - 100 → lo = last_ms - 100) ∧
           (last_ms == 250 → lo == 150)) ∧
    (∀ a, default_interval rm (Some a) None = Ok (a / B2.ms, last_ms)) ∧
    (∀ b, ∃ lo, default_interval rm None (Some b) = Ok (lo, b / B2.ms) ∧
           (b / B2.ms - 100 <= 0 → lo = 0) ∧
           (0 < b / B2.ms - 100 → lo = b / B2.ms - 100)) ∧
    (∀ a b, default_interval rm (Some a) (Some b) = Ok (a / B2.ms, b / B2.ms)).
Proof.
  intros Hne.
  destruct (py_max_spec ((λ t, t / B2.ms) <$> B2.rate_t rm)) as (m & Hm & Hin & Hall).
  { by destruct (B2.rate_t rm). }
  exists m. split; [done|]. split; [done|].
  assert (Hall' : Forall (λ t, t / B2.ms <= m) (B2.rate_t rm)).
  { by rewrite Forall_fmap in Hall. }
  split; [done|]. split; [|split; [|split; [|split]]].
  - intros tl Hs Hl. apply Qle_antisym.
    + apply list_elem_of_In, list_elem_of_fmap in Hin as (x & -> & Hx).
      pose proof (sorted_le_last _ _ Hs Hl) as Hle.
      rewrite Forall_forall in Hle. specialize (Hle x Hx).
      unfold B2.ms, Qdiv. apply Qmult_le_compat_r; [done|]. by vm_compute.
    + rewrite Forall_forall in Hall'. apply Hall'. by apply last_Some_elem_of.
  - exists (py_max2 0 (m - 100)). split; [by apply default_interval_derived|].
    destruct (py_max2_cases 0 (m - 100)) as [[-> H]|[-> H]].
    + repeat split; [lra | intros; lra].
    + repeat split; [lra | intros; lra].
  - intros a. unfold default_interval. by rewrite Hm.
  - intros b. exists (py_max2 0 (b / B2.ms - 100)). split; [done|].
    destruct (py_max2_cases 0 (b / B2.ms - 100)) as [[-> H]|[-> H]].
    + split; [done | lra].
    + split; [lra | done].
  - done.
Qed.

Lemma C1_default_interval_witness :
  B2.rate_t rate_250ms ≠ [] ∧
  ∃ lo hi, default_interval rate_250ms None None = Ok (lo, hi) ∧
           lo == 150 ∧ hi == 250.
Proof.
  split; [done|].
  destruct (C1_default_interval rate_250ms)
    as (m & Hm & _ & _ & _ & (lo & Hd & _ & _ & H250) & _); [done|].
  vm_compute in Hm. injection Hm as <-.
  exists lo, (1000 # 4). split; [exact Hd|].
  split; [apply H250|]; reflexivity.
Defined.

(** ** Highlighted rows *)

Lemma py_int_floor (q : Q) : 0 <= q → py_int q = Qfloor q.
Proof.
  destruct q as [n d]. unfold Qle, py_int, Qfloor. simpl. intros H.
  apply Z.quot_div_nonneg; lia.
Qed.

Lemma linspace_inner (n : nat) :
  py_slice_1_m1 (Np.linspace 0 1 (S (S n))) =
  (λ i : nat, inject_Z (Z.of_nat i) * ((1 - 0) / inject_Z (Z.of_nat (S n))) + 0)
    <$> seq 1 n.
Proof.
  unfold py_slice_1_m1, Np.linspace.
  replace (S (S n) - 1)%nat with (S n) by lia.
  replace (0 <? S n)%nat with true by (symmetry; apply Nat.ltb_lt; lia).
  replace (1 <? S (S n))%nat with true by (symmetry; apply Nat.ltb_lt; lia).
  rewrite <- list_fmap_compose.
  replace (seq 0 (S (S n))) with (0%nat :: seq 1 n ++ [S n]).
  2:{ rewrite (seq_S (S n) 0). done. }
  rewrite fmap_cons, fmap_app. simpl fmap at 2.
  rewrite app_comm_cons, removelast_last. simpl tail.
  by rewrite removelast_last.
Qed.


Lemma row_value (nr k : nat) (N : Z) :
  (0 < N)%Z →
  py_int (inject_Z (Z.of_nat nr) *
          (inject_Z (Z.of_nat k) * ((1 - 0) / inject_Z (N + 1)) + 0))
  = ((Z.of_nat k * Z.of_nat nr) `div` (N + 1))%Z.
Proof.
  intros HN.
  assert (Hpos : 0 < inject_Z (N + 1)).
  { change 0 with (inject_Z 0). rewrite <- Zlt_Qlt. lia. }
  assert (Heq : inject_Z (Z.of_nat nr) *
                (inject_Z (Z.of_nat k) * ((1 - 0) / inject_Z (N + 1)) + 0)
                == inject_Z (Z.of_nat k * Z.of_nat nr) / inject_Z (N + 1)).
  { rewrite inject_Z_mult. field. lra. }
  rewrite py_int_floor.
  - rewrite (Qfloor_comp _ _ Heq). symmetry. apply Zdiv_Qdiv.
  - rewrite Heq. apply Qle_shift_div_l; [done|].
    rewrite Qmult_0_l. change 0 with (inject_Z 0). rewrite <- Zle_Qle. lia.
Qed.

Lemma highlighted_rows_div (nr : nat) (N : Z) :
  (0 < N)%Z →
  highlighted_rows nr N =
  (λ k : nat, (Z.of_nat k * Z.of_nat nr) `div` (N + 1))%Z <$> seq 1 (Z.to_nat N).
Proof.
  intros HN. unfold highlighted_rows.
  replace (Z.to_nat (N + 2)) with (S (S (Z.to_nat N))) by lia.
  rewrite linspace_inner, <- list_fmap_compose.
  apply list_fmap_ext. intros _ k _. simpl.
  replace (Z.of_nat (S (Z.to_nat N))) with (N + 1)%Z by lia.
  by apply row_value.
Qed.

Lemma highlighted_rows_length (nr : nat) (N : Z) :
  (0 < N)%Z → length (highlighted_rows nr N) = Z.to_nat N.
Proof.
  intros HN. rewrite highlighted_rows_div by done.
  by rewrite length_fmap, length_seq.
Qed.

Lemma highlighted_rows_in_range (nr : nat) (N : Z) :
  (0 < N)%Z → (0 < nr)%nat →
  Forall (λ r, 0 ≤ r < Z.of_nat nr)%Z (highlighted_rows nr N).
Proof.
  intros HN Hnr. rewrite highlighted_rows_div by done.
  apply Forall_fmap, Forall_forall. intros k Hk.
  apply elem_of_seq in Hk. simpl. split.
  - apply Z.div_pos; lia.
  - apply Z.div_lt_upper_bound; nia.
Qed.



(** ** The selection of spike trains *)






(** ** Masks and positions *)

Lemma select_positions {A : Type} (p : A → bool) (rest : list A) : ∀ pre,
  omap (λ i, (pre ++ rest) !! i)
       (Np.select (p <$> rest) (seq (length pre) (length (p <$> rest))))
  = List.filter p rest.
Proof.
  induction rest as [|a rest IH]; intros pre; [done|].
  specialize (IH (pre ++ [a])).
  rewrite <- app_assoc, length_app, Nat.add_1_r in IH. simpl in *.
  destruct (p a); simpl.
  - rewrite list_lookup_middle by done. f_equal. exact IH.
  - exact IH.
Qed.

Lemma where_positions {A : Type} (p : A → bool) (l : list A) :
  omap (λ i, l !! i) (Np.where_ (p <$> l)) = List.filter p l.
Proof. apply (select_positions p l []). Qed.

Lemma select_filter {A : Type} (p : A → bool) (l : list A) :
  Np.select (p <$> l) l = List.filter p l.
Proof.
  induction l as [|a l IH]; [done|]. simpl in *.
  destruct (p a); [f_equal|]; exact IH.
Qed.

Lemma spike_times_in_window (t_min t_max : Q) (spike_train : list Q) :
  (get_spike_train_ts_indices t_min t_max spike_train).2 =
  List.filter (λ t, Qle_bool t_min t && Qle_bool t t_max)
              ((λ t, t / B2.ms) <$> spike_train).
Proof.
  unfold get_spike_train_ts_indices, Np.within. simpl.
  apply where_positions.
Qed.

(** ** The ISI histogram *)

(** C4: the histogram receives exactly the intervals (in ms) that do not
    exceed the cutoff, in their original order, while the title carries the
    CV that the statistics helper returned for the whole spike monitor,
    whatever the cutoff; intervals of 1, 2, 3 and 150 ms with a cutoff of
    100 ms display 1, 2 and 3 ms. *)
Theorem C4_isi_histogram
    (get_spike_train_stats : B2.SpikeMon → SpikeTrainStats)
    (spike_monitor : B2.SpikeMon) (hist_nr_bins : Z) (hist_max_ISI : Q) :
  let stats := get_spike_train_stats spike_monitor in
  let isi_ms := (λ d, d / B2.ms) <$> all_ISI stats in
  ∃ shown,
    plot_ISI_distribution get_spike_train_stats spike_monitor
                          hist_nr_bins hist_max_ISI
    = [Hist shown hist_nr_bins;
       Title "ISI histogram, CV={}" [CV stats];
       Xlabel "ISI [ms]"] ∧
    shown = List.filter (λ d, Qle_bool d (hist_max_ISI / B2.ms)) isi_ms ∧
    (∀ d, In d shown ↔ In d isi_ms ∧ d <= hist_max_ISI / B2.ms) ∧
    (∀ bins' cutoff',
       plot_ISI_distribution get_spike_train_stats spike_monitor bins' cutoff'
         !! 1%nat = Some (Title "ISI histogram, CV={}" [CV stats])) ∧
    (all_ISI stats = [1 # 1000; 2 # 1000; 3 # 1000; 150 # 1000] →
     hist_max_ISI = 100 * B2.ms →
     Forall2 Qeq shown [1; 2; 3] ∧ length isi_ms = 4%nat).
Proof.
  intros stats isi_ms.
  exists (List.filter (λ d, Qle_bool d (hist_max_ISI / B2.ms)) isi_ms).
  split; [|split; [done|split; [|split; [done|]]]].
  - unfold plot_ISI_distribution. fold stats. fold isi_ms.
    by rewrite where_positions.
  - intros d. rewrite filter_In. by rewrite Qle_bool_iff.
  - intros Hall ->. unfold isi_ms. rewrite Hall. split; [|done].
    vm_compute. repeat constructor.
Qed.

(** ** Voltage and current traces *)

Lemma py_getitem_first {A : Type} (l : list A) :
  l ≠ [] → ∃ a, py_getitem l 0 = Ok a.
Proof. destruct l as [|a l]; [done|]. intros _. by exists a. Qed.

Lemma py_getitem_last {A : Type} (l : list A) :
  l ≠ [] → ∃ a, py_getitem l (-1) = Ok a.
Proof.
  intros Hne. unfold py_getitem.
  assert (Hlen : (0 < length l)%nat) by (destruct l; [done|simpl; lia]).
  replace ((-1 <? 0)%Z) with true by done.
  replace ((Z.of_nat (length l) + -1 <? 0)%Z) with false
    by (symmetry; apply Z.ltb_ge; lia).
  destruct (lookup_lt_is_Some_2 l (Z.to_nat (Z.of_nat (length l) + -1)))
    as [a Ha]; [lia|].
  rewrite Ha. by exists a.
Qed.

Lemma div_mV_le (a b : Q) : a / B2.mV <= b / B2.mV ↔ a <= b.
Proof.
  unfold Qdiv. split; intros H.
  - by apply Qmult_le_r in H.
  - by apply Qmult_le_r.
Qed.

Lemma div_amp_lt (a b : Q) : a / B2.amp < b / B2.amp ↔ a < b.
Proof.
  unfold Qdiv. split; intros H.
  - by apply Qmult_lt_r in H.
  - by apply Qmult_lt_r.
Qed.

(** The result of the function, given the values of the intermediate calls
    that may raise. *)
Lemma traces_returns
    (vm : B2.StateMon) (cur : B2.TimedArr) (title : option string)
    (firing_threshold : option Q) (do_show_plot : bool) (legend_location : Z)
    (v0 : list Q) (cmax cmin vmax vmin : Q) :
  B2.state_t vm ≠ [] →
  py_max (B2.call cur <$> B2.state_t vm) = Ok cmax →
  py_min (B2.call cur <$> B2.state_t vm) = Ok cmin →
  B2.getitem_v vm 0 = Ok v0 →
  py_max v0 = Ok vmax →
  py_min v0 = Ok vmin →
  ∃ fig t_first t_last,
    plot_voltage_and_current_traces (StateMonitor vm) (TimedArray cur) title
      firing_threshold do_show_plot legend_location = Ok fig ∧
    axis_c fig =
      (let axis_c := [Plot ((λ t, t / B2.ms) <$> B2.state_t vm)
                           (B2.call cur <$> B2.state_t vm) "r" (Some 2)] in
       if py_gt ((105 # 100) * (cmax - cmin)) 0
       then axis_c ++ [Ylim ((cmin - (105 # 100) * (cmax - cmin)) / B2.amp)
                            ((cmax + (105 # 100) * (cmax - cmin)) / B2.amp)]
       else axis_c)
      ++ [Ylabel "Input current [A] \n min: {0} \nmax: {1}" [cmin; cmax]; Grid] ∧
    ∀ top, top = match firing_threshold with
                 | Some thr => py_max2 vmax thr
                 | None => vmax
                 end →
      axis_v fig =
        Plot ((λ t, t / B2.ms) <$> B2.state_t vm) ((λ v, v / B2.mV) <$> v0) "" (Some 2)
        :: match firing_threshold with
           | Some thr => [Plot [t_first; t_last] [thr / B2.mV; thr / B2.mV] "r--" (Some 2)]
           | None => []
           end
        ++ [Ylim ((vmin - (5 # 100) * (top - vmin)) / B2.mV)
                 ((top + (5 # 100) * (top - vmin)) / B2.mV);
            Xlabel "t [ms]";
            Ylabel "membrane voltage [mV]\n min: {0}\n max: {1}" [vmin; top];
            Grid]
        ++ match firing_threshold with
           | Some _ => [Legend ["vm"; "firing threshold"] legend_location]
           | None => []
           end.
Proof.
  intros Ht Hcmax Hcmin Hv0 Hvmax Hvmin.
  destruct (py_getitem_first ((λ t, t / B2.ms) <$> B2.state_t vm))
    as [t0 Ht0]; [by destruct (B2.state_t vm)|].
  destruct (py_getitem_last ((λ t, t / B2.ms) <$> B2.state_t vm))
    as [t1 Ht1]; [by destruct (B2.state_t vm)|].
  unfold plot_voltage_and_current_traces.
  rewrite Hcmax; cbn [mbind result_bind].
  rewrite Hcmin; cbn [mbind result_bind].
  rewrite Hv0; cbn [mbind result_bind].
  rewrite Hvmax, Hvmin.
  destruct firing_threshold as [thr|].
  - rewrite Ht0; cbn [mbind result_bind]. rewrite Ht1; cbn [mbind result_bind].
    eexists _, t0, t1. split; [reflexivity|]. split; [reflexivity|].
    intros top ->. cbn [axis_v]. by rewrite <- !app_assoc.
  - cbn [mbind result_bind].
    eexists _, 0, 0. split; [reflexivity|]. split; [reflexivity|].
    intros top ->. cbn [axis_v]. by rewrite app_nil_r.
Qed.


(** C6: with time stamps and a non-empty trace of neuron 0 the call
    returns, and the sampled current has a maximum and a minimum; if they
    are equal no y-limits are set on the current panel, and otherwise the
    limits are [min - 1.05 * (max - min)] and [max + 1.05 * (max - min)]
    (in A); whenever limits are set on the current panel, the lower one is
    strictly below the upper one. *)
Theorem C6_current_range
    (vm : B2.StateMon) (cur : B2.TimedArr) (title : option string)
    (firing_threshold : option Q) (do_show_plot : bool) (legend_location : Z)
    (v0 : list Q) :
  B2.state_t vm ≠ [] → B2.getitem_v vm 0 = Ok v0 → v0 ≠ [] →
  ∃ fig max_current min_current,
    plot_voltage_and_current_traces (StateMonitor vm) (TimedArray cur) title
      firing_threshold do_show_plot legend_location = Ok fig ∧
    py_max (B2.call cur <$> B2.state_t vm) = Ok max_current ∧
    py_min (B2.call cur <$> B2.state_t vm) = Ok min_current ∧
    min_current <= max_current ∧
    (max_current == min_current → get_ylim (axis_c fig) = None) ∧
    (¬ max_current == min_current →
       get_ylim (axis_c fig) =
         Some ((min_current - (105 # 100) * (max_current - min_current)) / B2.amp,
               (max_current + (105 # 100) * (max_current - min_current)) / B2.amp)) ∧
    (∀ lo hi, get_ylim (axis_c fig) = Some (lo, hi) → lo < hi).
Proof.
  intros Ht Hv0 Hne.
  destruct (py_max_spec (B2.call cur <$> B2.state_t vm))
    as (cmax & Hcmax & _); [by destruct (B2.state_t vm)|].
  destruct (py_min_spec (B2.call cur <$> B2.state_t vm))
    as (cmin & Hcmin & _); [by destruct (B2.state_t vm)|].
  destruct (py_max_spec v0 Hne) as (vmax & Hvmax & _).
  destruct (py_min_spec v0 Hne) as (vmin & Hvmin & _).
  pose proof (py_min_le_max _ _ _ Hcmin Hcmax) as Hle.
  destruct (traces_returns vm cur title firing_threshold do_show_plot
              legend_location v0 cmax cmin vmax vmin Ht Hcmax Hcmin Hv0 Hvmax Hvmin)
    as (fig & _ & _ & Hfig & Hc & _).
  exists fig, cmax, cmin.
  split; [done|]. split; [done|]. split; [done|]. split; [done|].
  rewrite Hc. cbn zeta.
  destruct (py_gt ((105 # 100) * (cmax - cmin)) 0) eqn:E.
  - apply py_gt_true in E. split; [intros; lra|]. split; [done|].
    intros lo hi [= <- <-]. apply div_amp_lt. lra.
  - apply py_gt_false in E. split; [done|]. split; [intros; lra|]. done.
Qed.

Lemma C6_current_range_witness :
  ∃ fig,
    plot_voltage_and_current_traces (StateMonitor trace_0_to_10mV)
      (TimedArray flat_current) None None true 1 = Ok fig ∧
    get_ylim (axis_c fig) = None.
Proof.
  destruct (C6_current_range trace_0_to_10mV flat_current None None true 1
              [0; 10 # 1000; 5 # 1000])
    as (fig & cmax & cmin & Hfig & Hmax & Hmin & _ & Hflat & _);
    [done|done|done|].
  exists fig. split; [done|]. apply Hflat.
  vm_compute in Hmax, Hmin. injection Hmax as <-. injection Hmin as <-.
  reflexivity.
Defined.

(** C5, as stated, fails: a threshold of -5 mV under a trace between 0 mV
    and 10 mV leaves the y-range at -0.5 mV to 10.5 mV, which does not
    contain the threshold. *)
Lemma C5_threshold_below_range :
  ∃ fig,
    plot_voltage_and_current_traces (StateMonitor trace_0_to_10mV)
      (TimedArray flat_current) None (Some (-5 # 1000)) true 1 = Ok fig ∧
    (∃ lo hi, get_ylim (axis_v fig) = Some (lo, hi) ∧
              lo == -1 # 2 ∧ hi == 21 # 2) ∧
    (-5 # 1000) / B2.mV == -5 ∧
    ¬ ylim_contains (axis_v fig) ((-5 # 1000) / B2.mV).
Proof.
  eexists. split; [vm_compute; reflexivity|].
  split; [eexists _, _; split; [reflexivity|split; reflexivity]|].
  split; [reflexivity|].
  intros (lo & hi & H & Hlo & _). vm_compute in H. injection H as <- <-.
  revert Hlo. unfold Qle. simpl. lia.
Qed.

(** C5, amended: with time stamps, a non-empty trace of neuron 0 and a
    threshold, the call returns and the upper y-limit of the voltage panel is
    [top + 0.05 * (top - vmin)] and the lower one
    [vmin - 0.05 * (top - vmin)] (in mV), where [top] is the larger of the
    voltage maximum and the threshold; the threshold never lies above the
    range, it lies inside exactly when it is not below
    [vmin - 0.05 * (vmax - vmin)], hence whenever it is at least the voltage
    minimum, and a threshold above the voltage maximum sits 5% of the
    widened range below the upper limit; the threshold line and the legend
    are drawn. *)
Theorem C5_voltage_range
    (vm : B2.StateMon) (cur : B2.TimedArr) (title : option string)
    (thr : Q) (do_show_plot : bool) (legend_location : Z) (v0 : list Q) :
  B2.state_t vm ≠ [] → B2.getitem_v vm 0 = Ok v0 → v0 ≠ [] →
  ∃ fig vmax vmin lo hi,
    plot_voltage_and_current_traces (StateMonitor vm) (TimedArray cur) title
      (Some thr) do_show_plot legend_location = Ok fig ∧
    py_max v0 = Ok vmax ∧ py_min v0 = Ok vmin ∧
    get_ylim (axis_v fig) = Some (lo, hi) ∧
    let top := py_max2 vmax thr in
    hi = (top + (5 # 100) * (top - vmin)) / B2.mV ∧
    lo = (vmin - (5 # 100) * (top - vmin)) / B2.mV ∧
    vmax <= top ∧ thr <= top ∧ (top = vmax ∨ top = thr) ∧
    thr / B2.mV <= hi ∧
    (lo <= thr / B2.mV ↔ vmin - (5 # 100) * (vmax - vmin) <= thr) ∧
    (vmin <= thr → ylim_contains (axis_v fig) (thr / B2.mV)) ∧
    (vmax < thr →
       ylim_contains (axis_v fig) (thr / B2.mV) ∧
       hi == (thr + (5 # 100) * (thr - vmin)) / B2.mV) ∧
    (∃ t_first t_last,
       In (Plot [t_first; t_last] [thr / B2.mV; thr / B2.mV] "r--" (Some 2))
          (axis_v fig)) ∧
    In (Legend ["vm"; "firing threshold"] legend_location) (axis_v fig).
Proof.
  intros Ht Hv0 Hne.
  destruct (py_max_spec (B2.call cur <$> B2.state_t vm))
    as (cmax & Hcmax & _); [by destruct (B2.state_t vm)|].
  destruct (py_min_spec (B2.call cur <$> B2.state_t vm))
    as (cmin & Hcmin & _); [by destruct (B2.state_t vm)|].
  destruct (py_max_spec v0 Hne) as (vmax & Hvmax & _).
  destruct (py_min_spec v0 Hne) as (vmin & Hvmin & _).
  pose proof (py_min_le_max _ _ _ Hvmin Hvmax) as Hle.
  destruct (traces_returns vm cur title (Some thr) do_show_plot
              legend_location v0 cmax cmin vmax vmin Ht Hcmax Hcmin Hv0 Hvmax Hvmin)
    as (fig & t0 & t1 & Hfig & _ & Hv).
  specialize (Hv _ eq_refl).
  set (top := py_max2 vmax thr) in *.
  assert (Hlim : get_ylim (axis_v fig) =
                 Some ((vmin - (5 # 100) * (top - vmin)) / B2.mV,
                       (top + (5 # 100) * (top - vmin)) / B2.mV))
    by (by rewrite Hv).
  assert (Htop : (top = vmax ∧ thr <= vmax) ∨ (top = thr ∧ vmax < thr))
    by apply py_max2_cases.
  assert (Hhi : thr / B2.mV <= (top + (5 # 100) * (top - vmin)) / B2.mV).
  { apply div_mV_le. destruct Htop as [[-> H]|[-> H]]; lra. }
  assert (Hlo : (vmin - (5 # 100) * (top - vmin)) / B2.mV <= thr / B2.mV
                ↔ vmin - (5 # 100) * (vmax - vmin) <= thr).
  { rewrite div_mV_le. destruct Htop as [[-> H]|[-> H]]; split; intros; lra. }
  exists fig, vmax, vmin, ((vmin - (5 # 100) * (top - vmin)) / B2.mV),
    ((top + (5 # 100) * (top - vmin)) / B2.mV).
  split; [done|]. split; [done|]. split; [done|]. split; [done|].
  cbn zeta. fold top. split; [done|]. split; [done|].
  split; [destruct Htop as [[-> H]|[-> H]]; lra|].
  split; [destruct Htop as [[-> H]|[-> H]]; lra|].
  split; [destruct Htop as [[-> H]|[-> H]]; [by left|by right]|].
  split; [done|]. split; [done|].
  split; [|split; [|split]].
  - intros H. eexists _, _. split; [exact Hlim|]. split; [|done].
    apply Hlo. lra.
  - intros H. split.
    + eexists _, _. split; [exact Hlim|]. split; [|done]. apply Hlo. lra.
    + destruct Htop as [[_ H']|[-> _]]; [lra|reflexivity].
  - exists t0, t1. rewrite Hv. right. by left.
  - rewrite Hv. do 6 right. by left.
Qed.

Lemma C5_voltage_range_witness :
  ∃ fig,
    plot_voltage_and_current_traces (StateMonitor trace_0_to_10mV)
      (TimedArray ramp_current) None (Some (20 # 1000)) true 1 = Ok fig ∧
    ylim_contains (axis_v fig) ((20 # 1000) / B2.mV) ∧
    ∃ lo hi, get_ylim (axis_v fig) = Some (lo, hi) ∧ lo == -1 ∧ hi == 21.
Proof.
  destruct (C5_voltage_range trace_0_to_10mV ramp_current None (20 # 1000)
              true 1 [0; 10 # 1000; 5 # 1000])
    as (fig & vmax & vmin & lo & hi & Hfig & Hmax & Hmin & Hlim & Hhi & Hlo
        & _ & _ & _ & _ & _ & _ & Habove & _);
    [done|done|done|].
  vm_compute in Hmax, Hmin. injection Hmax as <-. injection Hmin as <-.
  exists fig. split; [done|]. split.
  - by destruct Habove as [H _]; [reflexivity|].
  - exists lo, hi. split; [done|]. rewrite Hlo, Hhi. split; reflexivity.
Defined.

(** ** Which exceptions the helpers raise *)

Lemma bind_Ok {A B : Type} (m : result A) (f : A → result B) (b : B) :
  m ≫= f = Ok b → ∃ a, m = Ok a ∧ f a = Ok b.
Proof. destruct m as [a|e]; cbn; [|done]. intros H. by exists a. Qed.

Lemma bind_not_assertion {A B : Type} (m : result A) (f : A → result B) :
  is_assertion_error m = false →
  (∀ a, is_assertion_error (f a) = false) →
  is_assertion_error (m ≫= f) = false.
Proof. destruct m as [a|e]; cbn; [by intros _ H|by intros H _]. Qed.

Lemma py_max_not_assertion (l : list Q) : is_assertion_error (py_max l) = false.
Proof. by destruct l. Qed.

Lemma py_getitem_not_assertion {A : Type} (l : list A) (i : Z) :
  is_assertion_error (py_getitem l i) = false.
Proof. unfold py_getitem. by repeat case_match. Qed.

Lemma py_dict_getitem_not_assertion {A : Type} (d : gmap Z A) (k : Z) :
  is_assertion_error (py_dict_getitem d k) = false.
Proof. unfold py_dict_getitem. by case_match. Qed.

Lemma getitem_mask_not_assertion {A : Type} (x : list A) (mask : list bool) :
  is_assertion_error (Np.getitem_mask x mask) = false.
Proof. unfold Np.getitem_mask. by case_match. Qed.

Lemma getitem_v_not_assertion (m : B2.StateMon) (idx : Z) :
  is_assertion_error (B2.getitem_v m idx) = false.
Proof. unfold B2.getitem_v. by repeat case_match. Qed.

Create HintDb py_exn.
#[local] Hint Resolve py_max_not_assertion py_getitem_not_assertion
  py_dict_getitem_not_assertion getitem_mask_not_assertion
  getitem_v_not_assertion : py_exn.

(** Walks through a chain of binds whose links never raise an
    [AssertionError]. *)
Ltac no_assertion :=
  repeat first
    [ done
    | solve [auto with py_exn]
    | apply bind_not_assertion; [|intros ?] ].

Lemma default_interval_not_assertion
    (rm : B2.RateMon) (t_min t_max : option Q) :
  is_assertion_error (default_interval rm t_min t_max) = false.
Proof. unfold default_interval. destruct t_max; no_assertion. Qed.

Lemma plot_raster_loop_not_assertion
    (trains : gmap Z (list Q)) (t_min t_max : Q) (idxs : list Z) :
  ∀ c ax, is_assertion_error (plot_raster_loop trains t_min t_max idxs c ax) = false.
Proof.
  induction idxs as [|n idxs IH]; intros c ax; [done|].
  cbn [plot_raster_loop]. no_assertion.
Qed.

Lemma highlight_raster_loop_not_assertion
    (trains : gmap Z (list Q)) (sel : list Z) (t_min t_max : Q) (rows : list Z) :
  ∀ i ax,
    is_assertion_error (highlight_raster_loop trains sel t_min t_max i rows ax) = false.
Proof.
  induction rows as [|r rows IH]; intros i ax; [done|].
  cbn [highlight_raster_loop]. no_assertion.
Qed.

Lemma plot_voltage_traces_loop_not_assertion
    (vm : B2.StateMon) (sel : list Z) (ts : list Q) (mask : list bool)
    (rows : list Z) :
  ∀ i ax,
    is_assertion_error (plot_voltage_traces_loop vm sel ts mask i rows ax) = false.
Proof.
  induction rows as [|r rows IH]; intros i ax; [done|].
  cbn [plot_voltage_traces_loop]. no_assertion.
Qed.

#[local] Hint Resolve default_interval_not_assertion
  plot_raster_loop_not_assertion highlight_raster_loop_not_assertion
  plot_voltage_traces_loop_not_assertion : py_exn.

Lemma network_activity_not_assertion
    (rm : B2.RateMon) (sm : B2.SpikeMon) (vm : option B2.StateMon)
    (idxs : option (list Z)) (t_min t_max : option Q) (N : Z) :
  is_assertion_error (network_activity rm sm vm idxs t_min t_max N) = false.
Proof.
  unfold network_activity, plot_raster, plot_population_activity,
    highlight_raster, plot_voltage_traces.
  no_assertion.
  - destruct (0 <? N)%Z; no_assertion.
  - destruct vm; no_assertion.
Qed.

(** ** Validation of the index list *)

Lemma optional_list_spec (v : pyval) :
  match optional_list v with
  | Some (Some l) => v = PyList l
  | Some None => v = PyNone
  | None => v ≠ PyNone ∧ ∀ l, v ≠ PyList l
  end.
Proof. by destruct v. Qed.

(** C8, as stated, fails: a tuple is a sequence, yet the call rejects it. *)
Lemma C8_tuple_is_rejected :
  is_sequence_type (PyTuple [1; 2; 3]%Z) = true ∧
  plot_network_activity (PopulationRateMonitor rate_250ms)
    (SpikeMonitor five_trains) PyNone (PyTuple [1; 2; 3]%Z) None None 3
  = Raise (AssertionError "spike_train_idx_list is not of type list").
Proof. split; reflexivity. Qed.

(** C8, amended: with monitors of the right types, the call raises the
    [AssertionError] of the index list exactly when the argument is given
    and is not a Python [list] (a tuple or an array is rejected too),
    whatever the monitors hold; for [None] or a [list] the validation passes
    and the call continues with the selection, raising no
    [AssertionError] at all. *)
Theorem C8_index_list_validation
    (rm : B2.RateMon) (sm : B2.SpikeMon) (voltage_monitor : pyval)
    (spike_train_idx_list : pyval) (t_min t_max : option Q) (N : Z)
    (vm : option B2.StateMon) :
  optional_StateMonitor voltage_monitor = Some vm →
  let call := plot_network_activity (PopulationRateMonitor rm) (SpikeMonitor sm)
                voltage_monitor spike_train_idx_list t_min t_max N in
  (call = Raise (AssertionError "spike_train_idx_list is not of type list")
   ↔ spike_train_idx_list ≠ PyNone ∧ ∀ l, spike_train_idx_list ≠ PyList l) ∧
  (is_assertion_error call = true
   ↔ spike_train_idx_list ≠ PyNone ∧ ∀ l, spike_train_idx_list ≠ PyList l) ∧
  (spike_train_idx_list = PyNone →
     call = network_activity rm sm vm None t_min t_max N) ∧
  (∀ l, spike_train_idx_list = PyList l →
     call = network_activity rm sm vm (Some l) t_min t_max N).
Proof.
  intros Hvm call. unfold call, plot_network_activity. rewrite Hvm.
  pose proof (optional_list_spec spike_train_idx_list) as Hspec.
  destruct (optional_list spike_train_idx_list) as [[l|]|].
  - pose proof (network_activity_not_assertion rm sm vm (Some l) t_min t_max N)
      as Hbody.
    subst spike_train_idx_list. split; [|split; [|split]].
    + split; [intros H; by rewrite H in Hbody | intros [_ H]; by destruct (H l)].
    + split; [intros H; by rewrite H in Hbody | intros [_ H]; by destruct (H l)].
    + done.
    + by intros l' [= ->].
  - pose proof (network_activity_not_assertion rm sm vm None t_min t_max N)
      as Hbody.
    subst spike_train_idx_list. split; [|split; [|split]].
    + split; [intros H; by rewrite H in Hbody | by intros [? _]].
    + split; [intros H; by rewrite H in Hbody | by intros [? _]].
    + done.
    + done.
  - destruct Hspec as [Hn Hl]. split; [|split; [|split]].
    + done.
    + done.
    + done.
    + intros l ->. by destruct (Hl l).
Qed.

Lemma C8_index_list_validation_witness :
  plot_network_activity (PopulationRateMonitor rate_250ms)
    (SpikeMonitor five_trains) PyNone (PyNdarray [1; 2]%Z) None None 3
  = Raise (AssertionError "spike_train_idx_list is not of type list").
Proof.
  destruct (C8_index_list_validation rate_250ms five_trains PyNone
              (PyNdarray [1; 2]%Z) None None 3 None eq_refl) as ([_ H] & _).
  apply H. by split.
Defined.

(** ** An empty selection *)

Lemma py_getitem_nil {A : Type} (i : Z) :
  py_getitem ([] : list A) i = Raise IndexError.
Proof. unfold py_getitem. by repeat case_match. Qed.

Lemma highlight_raster_nil_selection
    (trains : gmap Z (list Q)) (t_min t_max : Q) (rows : list Z) (ax : axes) :
  rows ≠ [] →
  highlight_raster trains [] t_min t_max rows ax = Raise IndexError.
Proof.
  destruct rows as [|r rows]; [done|]. intros _.
  unfold highlight_raster. cbn [highlight_raster_loop].
  by rewrite py_getitem_nil.
Qed.

Lemma population_activity_Ok_or_IndexError
    (rm : B2.RateMon) (t_min t_max : Q) (ax : axes) :
  (∃ ax', plot_population_activity rm t_min t_max ax = Ok ax') ∨
  plot_population_activity rm t_min t_max ax = Raise IndexError.
Proof.
  unfold plot_population_activity, Np.getitem_mask.
  repeat case_match; cbn; eauto.
Qed.

(** C7 fails on the code: when the selection is empty and the highlight
    count is positive (3 by default), a call whose arguments pass the
    validation and whose interval can be derived raises [IndexError]. *)
Theorem C7_empty_selection_raises
    (rm : B2.RateMon) (sm : B2.SpikeMon) (voltage_monitor : pyval)
    (spike_train_idx_list : pyval) (t_min t_max : option Q) (N : Z)
    (vm : option B2.StateMon) (idxs : option (list Z)) (w : Q * Q) :
  optional_StateMonitor voltage_monitor = Some vm →
  optional_list spike_train_idx_list = Some idxs →
  select_spike_train_idx_list idxs vm (B2.spike_trains sm) = [] →
  default_interval rm t_min t_max = Ok w →
  (0 < N)%Z →
  plot_network_activity (PopulationRateMonitor rm) (SpikeMonitor sm)
    voltage_monitor spike_train_idx_list t_min t_max N = Raise IndexError.
Proof.
  intros Hvm Hidx Hsel Hw HN.
  unfold plot_network_activity. rewrite Hvm, Hidx.
  unfold network_activity. rewrite Hsel, Hw. cbn [mbind result_bind].
  unfold plot_raster. cbn [plot_raster_loop mbind result_bind].
  destruct (population_activity_Ok_or_IndexError rm w.1 w.2 [])
    as [[ax' ->]| ->]; [|done].
  cbn [mbind result_bind].
  replace (0 <? N)%Z with true by (symmetry; by apply Z.ltb_lt).
  rewrite highlight_raster_nil_selection; [done|].
  intros H. apply (f_equal length) in H.
  rewrite highlighted_rows_length in H by done. simpl in H. lia.
Qed.

Lemma C7_empty_selection_raises_witness :
  plot_network_activity (PopulationRateMonitor rate_250ms)
    (SpikeMonitor five_trains) PyNone (PyList []) None None 3
  = Raise IndexError.
Proof.
  apply (C7_empty_selection_raises rate_250ms five_trains PyNone (PyList [])
           None None 3 None (Some []) (600 # 4, 1000 # 4));
    [reflexivity | reflexivity | reflexivity | reflexivity | lia].
Defined.

(** With no highlighting, the same empty selection draws an empty raster:
    only the y-limits from 0 to 0 are set. *)
Lemma empty_selection_without_highlight
    (rm : B2.RateMon) (sm : B2.SpikeMon) (t_min t_max : option Q) (w : Q * Q) :
  default_interval rm t_min t_max = Ok w →
  length (B2.smooth_rate rm "flat" ((5 # 10) * B2.ms)) = length (B2.rate_t rm) →
  ∃ fig,
    plot_network_activity (PopulationRateMonitor rm) (SpikeMonitor sm)
      PyNone (PyList []) t_min t_max 0 = Ok fig ∧
    ax_raster fig = [Ylim 0 (inject_Z 0)] ∧ ax_voltage fig = None.
Proof.
  intros Hw Hlen. unfold plot_network_activity, network_activity.
  cbn [optional_StateMonitor optional_list select_spike_train_idx_list].
  rewrite Hw. cbn [mbind result_bind].
  unfold plot_raster. cbn [plot_raster_loop mbind result_bind].
  unfold plot_population_activity, Np.getitem_mask, Np.within.
  rewrite !length_fmap, Hlen, Nat.eqb_refl. cbn [mbind result_bind].
  eexists. split; [reflexivity|]. by split.
Qed.

(** ** When the call returns *)

Lemma py_getitem_in_range {A : Type} (l : list A) (r : Z) :
  (0 ≤ r < Z.of_nat (length l))%Z → ∃ a, py_getitem l r = Ok a ∧ a ∈ l.
Proof.
  intros Hr. unfold py_getitem. cbn zeta.
  assert (E : (r <? 0)%Z = false) by (apply Z.ltb_ge; lia).
  rewrite E. cbn iota. rewrite E.
  destruct (lookup_lt_is_Some_2 l (Z.to_nat r)) as [a Ha]; [lia|].
  rewrite Ha. exists a. split; [done|]. by eapply list_elem_of_lookup_2.
Qed.

Lemma py_range_in_range (n : nat) :
  Forall (λ r, 0 ≤ r < Z.of_nat n)%Z (py_range n).
Proof.
  unfold py_range. apply Forall_fmap, Forall_forall. intros k Hk.
  apply elem_of_seq in Hk. simpl. lia.
Qed.

Lemma default_interval_returns (rm : B2.RateMon) (t_min t_max : option Q) :
  (t_max = None → B2.rate_t rm ≠ []) →
  ∃ w, default_interval rm t_min t_max = Ok w.
Proof.
  intros H. unfold default_interval. destruct t_max as [b|].
  - by eexists.
  - destruct (py_max_spec ((λ t, t / B2.ms) <$> B2.rate_t rm)) as (m & -> & _).
    + specialize (H eq_refl). by destruct (B2.rate_t rm).
    + by eexists.
Qed.

Lemma plot_raster_loop_returns
    (trains : gmap Z (list Q)) (t_min t_max : Q) (idxs : list Z) :
  Forall (λ n, is_Some (trains !! n)) idxs →
  ∀ c ax, ∃ r, plot_raster_loop trains t_min t_max idxs c ax = Ok r.
Proof.
  induction 1 as [|n idxs [st Hst] _ IH]; intros c ax; [by eexists|].
  cbn [plot_raster_loop]. unfold py_dict_getitem. rewrite Hst.
  cbn [mbind result_bind]. apply IH.
Qed.

Lemma population_activity_returns
    (rm : B2.RateMon) (t_min t_max : Q) (ax : axes) :
  length (B2.smooth_rate rm "flat" ((5 # 10) * B2.ms)) = length (B2.rate_t rm) →
  ∃ ax', plot_population_activity rm t_min t_max ax = Ok ax'.
Proof.
  intros Hlen. unfold plot_population_activity, Np.getitem_mask, Np.within.
  rewrite !length_fmap, Hlen, Nat.eqb_refl. cbn [mbind result_bind].
  by eexists.
Qed.

Lemma highlight_raster_loop_returns
    (trains : gmap Z (list Q)) (sel : list Z) (t_min t_max : Q) (rows : list Z) :
  Forall (λ n, is_Some (trains !! n)) sel →
  Forall (λ r, 0 ≤ r < Z.of_nat (length sel))%Z rows →
  ∀ i ax, ∃ ax', highlight_raster_loop trains sel t_min t_max i rows ax = Ok ax'.
Proof.
  intros Hsel. induction 1 as [|r rows Hr _ IH]; intros i ax; [by eexists|].
  cbn [highlight_raster_loop].
  destruct (py_getitem_in_range sel r Hr) as (n & -> & Hn).
  cbn [mbind result_bind].
  rewrite Forall_forall in Hsel. destruct (Hsel n Hn) as [st Hst].
  unfold py_dict_getitem. rewrite Hst. cbn [mbind result_bind]. apply IH.
Qed.

Lemma plot_voltage_traces_loop_returns
    (vm : B2.StateMon) (sel : list Z) (ts : list Q) (mask : list bool)
    (rows : list Z) :
  length mask = length ts →
  Forall (λ n, ∃ tr, B2.getitem_v vm n = Ok tr ∧ length tr = length ts) sel →
  Forall (λ r, 0 ≤ r < Z.of_nat (length sel))%Z rows →
  ∀ i ax, ∃ ax', plot_voltage_traces_loop vm sel ts mask i rows ax = Ok ax'.
Proof.
  intros Hmask Hsel. induction 1 as [|r rows Hr _ IH]; intros i ax; [by eexists|].
  cbn [plot_voltage_traces_loop].
  destruct (py_getitem_in_range sel r Hr) as (n & -> & Hn).
  cbn [mbind result_bind].
  rewrite Forall_forall in Hsel. destruct (Hsel n Hn) as (tr & Htr & Hlen).
  unfold Np.getitem_mask. rewrite Hmask, Nat.eqb_refl. cbn [mbind result_bind].
  rewrite Htr. cbn [mbind result_bind].
  rewrite Hlen, Nat.eqb_refl. cbn [mbind result_bind]. apply IH.
Qed.

Lemma trace_rows_in_range (nr : nat) (N : Z) :
  ((0 < N)%Z → (0 < nr)%nat) →
  Forall (λ r, 0 ≤ r < Z.of_nat nr)%Z (trace_rows nr N).
Proof.
  intros H. unfold trace_rows.
  destruct (N =? 0)%Z; [apply py_range_in_range|].
  destruct (0 <? N)%Z eqn:E; [|constructor].
  apply Z.ltb_lt in E. apply highlighted_rows_in_range; auto.
Qed.

Lemma voltage_panel_returns
    (vm : option B2.StateMon) (sel : list Z) (w : Q * Q) (rows : list Z)
    (ax_r ax_p : axes) :
  match vm with
  | Some m =>
      Forall (λ n, ∃ tr, B2.getitem_v m n = Ok tr ∧
                         length tr = length (B2.state_t m)) sel
  | None => True
  end →
  Forall (λ r, 0 ≤ r < Z.of_nat (length sel))%Z rows →
  ∃ fig,
    match vm with
    | Some m =>
        ax_voltage ← plot_voltage_traces m sel w.1 w.2 rows [];
        Ok {| ax_raster := ax_r; ax_rate := ax_p;
              ax_voltage := Some (ax_voltage ++ [Xlabel "t [ms]"]) |}
    | None =>
        Ok {| ax_raster := ax_r; ax_rate := ax_p ++ [Xlabel "t [ms]"];
              ax_voltage := None |}
    end = Ok fig.
Proof.
  intros Hvm Hrows. destruct vm as [m|]; [|by eexists].
  unfold plot_voltage_traces.
  destruct (plot_voltage_traces_loop_returns m sel
              ((λ t, t / B2.ms) <$> B2.state_t m)
              (Np.within w.1 w.2 ((λ t, t / B2.ms) <$> B2.state_t m))
              rows) with (i := 0%nat) (ax := @nil draw)
    as [ax_v ->].
  - unfold Np.within. by rewrite length_fmap.
  - eapply Forall_impl; [exact Hvm|]. intros n (tr & Htr & Hlen).
    exists tr. split; [done|]. by rewrite length_fmap.
  - done.
  - cbn [mbind result_bind]. by eexists.
Qed.

(** Well-formed inputs make the call return a figure. *)
Lemma network_activity_returns
    (rm : B2.RateMon) (sm : B2.SpikeMon) (vm : option B2.StateMon)
    (idxs : option (list Z)) (t_min t_max : option Q) (N : Z) :
  well_formed rm sm vm idxs t_min t_max N →
  ∃ fig, network_activity rm sm vm idxs t_min t_max N = Ok fig.
Proof.
  intros (Ht & Hsmooth & Htrains & Hvm & HN).
  unfold network_activity. cbn zeta.
  set (sel := select_spike_train_idx_list idxs vm (B2.spike_trains sm)) in *.
  destruct (default_interval_returns rm t_min t_max Ht) as [w ->].
  cbn [mbind result_bind]. unfold plot_raster.
  destruct (plot_raster_loop_returns _ w.1 w.2 _ Htrains 0%Z []) as [[cnt ax0] ->].
  cbn [mbind result_bind fst snd].
  destruct (population_activity_returns rm w.1 w.2 [] Hsmooth) as [ax_p ->].
  cbn [mbind result_bind].
  destruct (0 <? N)%Z eqn:E.
  - apply Z.ltb_lt in E. unfold highlight_raster.
    assert (Hpos : (0 < length sel)%nat).
    { specialize (HN E). destruct sel; [done|simpl; lia]. }
    pose proof (highlighted_rows_in_range _ _ E Hpos) as Hrows.
    destruct (highlight_raster_loop_returns (B2.spike_trains sm) sel w.1 w.2
                (highlighted_rows (length sel) N) Htrains Hrows 0%nat
                (ax0 ++ [Ylim 0 (inject_Z cnt)])) as [ax' ->].
    cbn [mbind result_bind].
    apply (voltage_panel_returns vm sel w); [done|].
    destruct (N =? 0)%Z; [apply py_range_in_range|done].
  - cbn [mbind result_bind].
    apply (voltage_panel_returns vm sel w); [done|].
    destruct (N =? 0)%Z; [apply py_range_in_range|constructor].
Qed.

(** ** The raster *)

Lemma plot_raster_loop_spec
    (trains : gmap Z (list Q)) (w : Q * Q) (idxs : list Z) :
  ∀ c ax r,
    plot_raster_loop trains w.1 w.2 idxs c ax = Ok r →
    r.1 = (c + Z.of_nat (length idxs))%Z ∧
    ∃ sts,
      Forall2 (λ n st, trains !! n = Some st) idxs sts ∧
      r.2 = ax ++ imap (λ i st, raster_row w (c + Z.of_nat i) "k" 15 st) sts.
Proof.
  induction idxs as [|n idxs IH]; intros c ax r H.
  - injection H as <-. split; [simpl; lia|].
    exists []. split; [constructor|]. by rewrite app_nil_r.
  - cbn [plot_raster_loop] in H.
    apply bind_Ok in H as (st & Hst & H).
    apply IH in H as (Hc & sts & Hsts & Hax).
    split; [rewrite Hc; simpl length; lia|].
    exists (st :: sts). split.
    + constructor; [|done]. unfold py_dict_getitem in Hst.
      destruct (trains !! n); by simplify_eq.
    + rewrite Hax, <- app_assoc. f_equal. cbn [imap app]. f_equal.
      * unfold raster_row, Np.times_ones. rewrite spike_times_in_window.
        by rewrite Z.add_0_r.
      * apply imap_ext. intros i x _. cbn.
        by replace (c + 1 + Z.of_nat i)%Z with (c + Z.of_nat (S i))%Z by lia.
Qed.

Lemma highlight_raster_loop_extends
    (trains : gmap Z (list Q)) (sel : list Z) (t_min t_max : Q) (rows : list Z) :
  ∀ i ax ax',
    highlight_raster_loop trains sel t_min t_max i rows ax = Ok ax' →
    ∃ rest, ax' = ax ++ rest.
Proof.
  induction rows as [|r rows IH]; intros i ax ax' H.
  - injection H as <-. exists []. by rewrite app_nil_r.
  - cbn [highlight_raster_loop] in H.
    apply bind_Ok in H as (n & _ & H). apply bind_Ok in H as (st & _ & H).
    apply IH in H as [rest ->]. rewrite <- app_assoc. by eexists.
Qed.

Lemma scatters_app (ax1 ax2 : axes) :
  scatters (ax1 ++ ax2) = scatters ax1 ++ scatters ax2.
Proof.
  induction ax1 as [|d ax1 IH]; [done|].
  destruct d; cbn [scatters app]; by rewrite ?IH.
Qed.

Lemma lines_app (ax1 ax2 : axes) :
  lines (ax1 ++ ax2) = lines ax1 ++ lines ax2.
Proof.
  induction ax1 as [|d ax1 IH]; [done|].
  destruct d; cbn [lines app]; by rewrite ?IH.
Qed.

Lemma scatters_raster_rows (w : Q * Q) (sts : list (list Q)) : ∀ c,
  length (scatters (imap (λ i st, raster_row w (c + Z.of_nat i) "k" 15 st) sts))
  = length sts.
Proof.
  induction sts as [|st sts IH]; intros c; [done|].
  cbn [imap scatters raster_row length]. f_equal.
  rewrite <- (IH (c + 1)%Z). do 2 f_equal.
  apply imap_ext. intros i x _. cbn.
  by replace (c + 1 + Z.of_nat i)%Z with (c + Z.of_nat (S i))%Z by lia.
Qed.

(** C10: with an explicit index list the selection is that very list; when
    the call returns, the raster starts with one row per entry of the list,
    in the order given and numbered from 0, each row holding the spike times
    of its neuron inside the window, followed by the y-limits from 0 to the
    length of the list; the list is neither sorted nor cut at 500. *)
Theorem C10_explicit_selection
    (rm : B2.RateMon) (sm : B2.SpikeMon) (voltage_monitor : pyval)
    (l : list Z) (t_min t_max : option Q) (N : Z)
    (vm : option B2.StateMon) :
  optional_StateMonitor voltage_monitor = Some vm →
  let call := plot_network_activity (PopulationRateMonitor rm)
                (SpikeMonitor sm) voltage_monitor (PyList l) t_min t_max N in
  select_spike_train_idx_list (Some l) vm (B2.spike_trains sm) = l ∧
  (well_formed rm sm vm (Some l) t_min t_max N → ∃ fig, call = Ok fig) ∧
  ∀ fig, call = Ok fig →
    ∃ w sts rest,
      default_interval rm t_min t_max = Ok w ∧
      Forall2 (λ n st, B2.spike_trains sm !! n = Some st) l sts ∧
      ax_raster fig =
        imap (λ i st, raster_row w (Z.of_nat i) "k" 15 st) sts
        ++ Ylim 0 (inject_Z (Z.of_nat (length l))) :: rest ∧
      length (scatters (ax_raster fig)) ≥ length l.
Proof.
  intros Hvm call. split; [done|]. split.
  { intros Hwf. unfold call, plot_network_activity. rewrite Hvm.
    cbn [optional_list]. by apply network_activity_returns. }
  intros fig H. unfold call in H. clear call.
  unfold plot_network_activity in H. rewrite Hvm in H.
  cbn [optional_list] in H. unfold network_activity in H.
  cbn [select_spike_train_idx_list] in H. cbn zeta in H.
  apply bind_Ok in H as (w & Hw & H).
  apply bind_Ok in H as (ax_r & Hr & H).
  apply bind_Ok in H as (ax_p & _ & H).
  apply bind_Ok in H as (ax_h & Hh & H).
  unfold plot_raster in Hr. apply bind_Ok in Hr as (r & Hr & Hax).
  injection Hax as <-.
  apply plot_raster_loop_spec in Hr as (Hc & sts & Hsts & Hr).
  destruct r as [cnt ax0]. cbn [fst snd] in *. subst cnt ax0.
  cbn [app] in Hh.
  assert (Hext : ∃ rest,
    ax_h = imap (λ i st, raster_row w (0 + Z.of_nat i) "k" 15 st) sts
           ++ Ylim 0 (inject_Z (Z.of_nat (length l))) :: rest).
  { destruct (0 <? N)%Z.
    - unfold highlight_raster in Hh. apply bind_Ok in Hh as (ax' & Hh & Hax).
      injection Hax as <-.
      apply highlight_raster_loop_extends in Hh as [rest ->].
      exists (rest ++ [Ylabel "neuron #" []; Title "Raster Plot (random subset)" []]).
      by rewrite <- !app_assoc.
    - injection Hh as <-. by exists []. }
  destruct Hext as [rest Hext].
  assert (Hfig : ax_raster fig = ax_h).
  { destruct vm as [m|].
    - apply bind_Ok in H as (ax_v & _ & H). by injection H as <-.
    - by injection H as <-. }
  exists w, sts, rest. split; [done|]. split; [done|].
  rewrite Hfig, Hext. split; [done|].
  rewrite scatters_app, length_app, (scatters_raster_rows w sts 0).
  apply Forall2_length in Hsts. lia.
Qed.

Lemma C10_explicit_selection_witness :
  ∃ fig w rest,
    plot_network_activity (PopulationRateMonitor rate_250ms)
      (SpikeMonitor five_trains) PyNone (PyList [5; 1; 3]%Z) None None 0
    = Ok fig ∧
    default_interval rate_250ms None None = Ok w ∧
    ax_raster fig =
      [raster_row w 0 "k" 15 [24 # 100];
       raster_row w 1 "k" 15 [2 # 10];
       raster_row w 2 "k" 15 [];
       Ylim 0 (inject_Z 3)] ++ rest.
Proof.
  destruct (C10_explicit_selection rate_250ms five_trains PyNone [5; 1; 3]%Z
              None None 0 None eq_refl) as (_ & Hret & Hdrawn).
  destruct Hret as [fig Hcall].
  { split; [done|]. split; [reflexivity|].
    split; [|split; [done|intros H; lia]].
    repeat (apply Forall_cons; split; [by (vm_compute; eexists)|]).
    by apply Forall_nil. }
  destruct (Hdrawn fig Hcall) as (w & sts & rest & Hw & Hsts & Hax & _).
  exists fig, w, rest. split; [done|]. split; [done|].
  apply Forall2_cons_inv_l in Hsts as (st1 & sts1 & H1 & Hsts & ->).
  apply Forall2_cons_inv_l in Hsts as (st2 & sts2 & H2 & Hsts & ->).
  apply Forall2_cons_inv_l in Hsts as (st3 & sts3 & H3 & Hsts & ->).
  apply Forall2_nil_inv_l in Hsts as ->.
  vm_compute in H1, H2, H3.
  injection H1 as <-. injection H2 as <-. injection H3 as <-.
  exact Hax.
Defined.

(** An explicit list of 501 entries, not in ascending order, is drawn
    whole: 501 rows and y-limits up to 501. *)
Example explicit_selection_of_501 :
  ∃ fig,
    plot_network_activity (PopulationRateMonitor rate_250ms)
      (SpikeMonitor five_trains) PyNone
      (PyList (replicate 500 5%Z ++ [1%Z])) None None 0 = Ok fig ∧
    length (scatters (ax_raster fig)) = 501%nat ∧
    get_ylim (ax_raster fig) = Some (0, inject_Z 501).
Proof. eexists. split; [vm_compute; reflexivity|]. by vm_compute. Qed.

(** ** The voltage panel *)

Lemma getitem_mask_Ok {A : Type} (x y : list A) (mask : list bool) :
  Np.getitem_mask x mask = Ok y → y = Np.select mask x.
Proof. unfold Np.getitem_mask. case_match; by intros [= <-]. Qed.

Lemma py_getitem_nat {A : Type} (l : list A) (i : nat) (a : A) :
  py_getitem l (Z.of_nat i) = Ok a → l !! i = Some a.
Proof.
  assert (E : (Z.of_nat i <? 0)%Z = false) by (apply Z.ltb_ge; lia).
  unfold py_getitem. cbn zeta. rewrite E. cbn iota. rewrite E, Nat2Z.id.
  destruct (l !! i); by intros [= <-].
Qed.

Lemma plot_voltage_traces_loop_spec
    (vm : B2.StateMon) (sel : list Z) (w : Q * Q) (rows : list Z) :
  let ts := (λ t, t / B2.ms) <$> B2.state_t vm in
  ∀ i ax ax',
    plot_voltage_traces_loop vm sel ts (Np.within w.1 w.2 ts) i rows ax = Ok ax' →
    ∃ traces : list (Z * list Q),
      Forall2 (λ r nt, py_getitem sel r = Ok nt.1 ∧ B2.getitem_v vm nt.1 = Ok nt.2)
              rows traces ∧
      lines ax' = lines ax ++ imap (λ j nt, trace_line vm w (i + j) nt.2) traces.
Proof.
  intros ts. induction rows as [|r rows IH]; intros i ax ax' H.
  - injection H as <-. exists []. split; [constructor|]. by rewrite app_nil_r.
  - cbn [plot_voltage_traces_loop] in H.
    apply bind_Ok in H as (n & Hn & H). apply bind_Ok in H as (xs & Hxs & H).
    apply bind_Ok in H as (v & Hv & H). apply bind_Ok in H as (ys & Hys & H).
    apply getitem_mask_Ok in Hxs as ->. apply getitem_mask_Ok in Hys as ->.
    apply IH in H as (traces & Htr & Hl).
    exists ((n, v) :: traces). split; [by constructor|].
    rewrite Hl, lines_app, <- app_assoc. f_equal.
    cbn [lines imap app fst snd]. f_equal.
    + unfold trace_line, windowed_mV. by rewrite Nat.add_0_r.
    + apply imap_ext. intros j x _. cbn. by rewrite Nat.add_succ_r.
Qed.

Lemma range_rows_are_selection
    (vm : B2.StateMon) (sel : list Z) (traces : list (Z * list Q)) :
  Forall2 (λ r nt, py_getitem sel r = Ok nt.1 ∧ B2.getitem_v vm nt.1 = Ok nt.2)
          (py_range (length sel)) traces →
  fst <$> traces = sel.
Proof.
  intros H. apply list_eq. intros i.
  rewrite list_lookup_fmap.
  pose proof (Forall2_length _ _ _ H) as Hlen.
  unfold py_range in Hlen. rewrite length_fmap, length_seq in Hlen.
  destruct (traces !! i) as [nt|] eqn:Hnt.
  - assert (Hi : (i < length sel)%nat).
    { rewrite Hlen. by eapply lookup_lt_Some. }
    assert (Hr : py_range (length sel) !! i = Some (Z.of_nat i)).
    { unfold py_range. rewrite list_lookup_fmap, lookup_seq_lt by done. done. }
    destruct (Forall2_lookup_lr _ _ _ _ _ _ H Hr Hnt) as [Hsel _].
    apply py_getitem_nat in Hsel. by rewrite Hsel.
  - apply lookup_ge_None in Hnt. symmetry. apply lookup_ge_None.
    cbn. lia.
Qed.


(** The cut at 500 has the same effect: of 501 recorded neurons, selected
    by default and drawn without highlighting, the last one is left out. *)
Example recorded_beyond_500_not_plotted :
  ∃ fig ax w,
    plot_network_activity (PopulationRateMonitor rate_250ms)
      (SpikeMonitor many_trains) (StateMonitor many_traces)
      PyNone None None 0 = Ok fig ∧
    ax_voltage fig = Some ax ∧
    default_interval rate_250ms None None = Ok w ∧
    length (B2.record many_traces) = 501%nat ∧
    length (lines ax) = 500%nat ∧
    ¬ plots_every_recorded_trace many_traces w ax.
Proof.
  eexists _, _, _. split; [vm_compute; reflexivity|].
  split; [reflexivity|]. split; [vm_compute; reflexivity|].
  split; [reflexivity|]. split; [reflexivity|].
  intros H. destruct (H 500%Z [500]) as (xs & style & Hin).
  - apply list_elem_of_fmap. exists 500%nat. split; [done|].
    apply elem_of_seq. lia.
  - reflexivity.
  - apply list_elem_of_In in Hin.
    apply (in_map (λ l, match l.1.2 with [q] => Qnum q | _ => 0%Z end)) in Hin.
    cbn beta in Hin.
    match type of Hin with
    | In ?z ?l =>
        assert (Hall : forallb (λ y, negb (y =? z)%Z) l = true)
          by (vm_compute; reflexivity);
        rewrite forallb_forall in Hall; specialize (Hall _ Hin);
        vm_compute in Hall; discriminate
    end.
Qed.




(** * Further properties of the module *)

(** ** Outcomes of [plot_voltage_and_current_traces] *)

Lemma getitem_v_raises_IndexError (m : B2.StateMon) (idx : Z) (e : exn) :
  B2.getitem_v m idx = Raise e → e = IndexError.
Proof. unfold B2.getitem_v. repeat case_match; by intros [= <-]. Qed.

Lemma py_min_not_assertion (l : list Q) : is_assertion_error (py_min l) = false.
Proof. by destruct l. Qed.

#[local] Hint Resolve py_min_not_assertion : py_exn.

Lemma traces_not_assertion
    (vm : B2.StateMon) (cur : B2.TimedArr) (title : option string)
    (firing_threshold : option Q) (do_show_plot : bool) (legend_location : Z) :
  is_assertion_error
    (plot_voltage_and_current_traces (StateMonitor vm) (TimedArray cur) title
       firing_threshold do_show_plot legend_location) = false.
Proof.
  unfold plot_voltage_and_current_traces.
  destruct firing_threshold; no_assertion.
Qed.

(** X1: with arguments of the right types, the call returns exactly when
    the monitor has time stamps and a non-empty trace of neuron 0; without
    time stamps it raises [ValueError] (the [max] of no currents), with time
    stamps but neuron 0 not recorded it raises [IndexError], and with an
    empty trace of neuron 0 it raises [ValueError]. *)
Theorem X1_traces_outcome
    (vm : B2.StateMon) (cur : B2.TimedArr) (title : option string)
    (firing_threshold : option Q) (do_show_plot : bool) (legend_location : Z) :
  let call := plot_voltage_and_current_traces (StateMonitor vm) (TimedArray cur)
                title firing_threshold do_show_plot legend_location in
  (B2.state_t vm = [] → call = Raise ValueError) ∧
  (B2.state_t vm ≠ [] → (∀ v0, B2.getitem_v vm 0 ≠ Ok v0) →
     call = Raise IndexError) ∧
  (B2.state_t vm ≠ [] → B2.getitem_v vm 0 = Ok [] → call = Raise ValueError) ∧
  ((∃ fig, call = Ok fig) ↔
     B2.state_t vm ≠ [] ∧ ∃ v0, B2.getitem_v vm 0 = Ok v0 ∧ v0 ≠ []).
Proof.
  intros call.
  assert (Hempty : B2.state_t vm = [] → call = Raise ValueError).
  { intros Ht. unfold call, plot_voltage_and_current_traces. by rewrite Ht. }
  assert (Hcur : B2.state_t vm ≠ [] →
    ∃ cmax cmin, py_max (B2.call cur <$> B2.state_t vm) = Ok cmax ∧
                 py_min (B2.call cur <$> B2.state_t vm) = Ok cmin).
  { intros Ht.
    destruct (py_max_spec (B2.call cur <$> B2.state_t vm))
      as (cmax & Hcmax & _); [by destruct (B2.state_t vm)|].
    destruct (py_min_spec (B2.call cur <$> B2.state_t vm))
      as (cmin & Hcmin & _); [by destruct (B2.state_t vm)|].
    by exists cmax, cmin. }
  assert (Hunrec : B2.state_t vm ≠ [] → (∀ v0, B2.getitem_v vm 0 ≠ Ok v0) →
                   call = Raise IndexError).
  { intros Ht Hv. destruct (Hcur Ht) as (cmax & cmin & Hcmax & Hcmin).
    unfold call, plot_voltage_and_current_traces.
    rewrite Hcmax; cbn [mbind result_bind].
    rewrite Hcmin; cbn [mbind result_bind].
    destruct (B2.getitem_v vm 0) as [v0|e] eqn:E; [by destruct (Hv v0)|].
    apply getitem_v_raises_IndexError in E as ->. done. }
  assert (Hnil : B2.state_t vm ≠ [] → B2.getitem_v vm 0 = Ok [] →
                 call = Raise ValueError).
  { intros Ht Hv. destruct (Hcur Ht) as (cmax & cmin & Hcmax & Hcmin).
    unfold call, plot_voltage_and_current_traces.
    rewrite Hcmax; cbn [mbind result_bind].
    rewrite Hcmin; cbn [mbind result_bind].
    rewrite Hv; cbn [mbind result_bind].
    destruct firing_threshold as [thr|]; [|done].
    destruct (py_getitem_first ((λ t, t / B2.ms) <$> B2.state_t vm))
      as [t0 ->]; [by destruct (B2.state_t vm)|].
    destruct (py_getitem_last ((λ t, t / B2.ms) <$> B2.state_t vm))
      as [t1 ->]; [by destruct (B2.state_t vm)|].
    done. }
  split; [done|]. split; [done|]. split; [done|]. split.
  - intros [fig Hfig].
    destruct (B2.state_t vm) as [|t ts] eqn:Ht.
    { rewrite Hempty in Hfig; done. }
    split; [done|].
    destruct (B2.getitem_v vm 0) as [v0|e] eqn:E.
    + exists v0. split; [done|]. intros ->. rewrite Hnil in Hfig; done.
    + rewrite Hunrec in Hfig; done.
  - intros (Ht & v0 & Hv0 & Hne).
    destruct (Hcur Ht) as (cmax & cmin & Hcmax & Hcmin).
    destruct (py_max_spec v0 Hne) as (vmax & Hvmax & _).
    destruct (py_min_spec v0 Hne) as (vmin & Hvmin & _).
    destruct (traces_returns vm cur title firing_threshold do_show_plot
                legend_location v0 cmax cmin vmax vmin Ht Hcmax Hcmin Hv0
                Hvmax Hvmin) as (fig & _ & _ & Hfig & _).
    by exists fig.
Qed.

(** X2: the monitor is checked before the current: a first argument that is
    not a [StateMonitor] raises the [AssertionError] of the monitor whatever
    the current is, a [StateMonitor] with a current that is not a
    [TimedArray] raises the one of the current, and these are the only
    [AssertionError]s of the call. *)
Theorem X2_traces_validation
    (voltage_monitor current : pyval) (title : option string)
    (firing_threshold : option Q) (do_show_plot : bool) (legend_location : Z) :
  let call := plot_voltage_and_current_traces voltage_monitor current title
                firing_threshold do_show_plot legend_location in
  ((∀ m, voltage_monitor ≠ StateMonitor m) →
     call = Raise (AssertionError "voltage_monitor is not of type StateMonitor")) ∧
  (∀ m, voltage_monitor = StateMonitor m → (∀ a, current ≠ TimedArray a) →
     call = Raise (AssertionError "current is not of type TimedArray")) ∧
  (is_assertion_error call = true ↔
     (∀ m, voltage_monitor ≠ StateMonitor m) ∨ (∀ a, current ≠ TimedArray a)).
Proof.
  intros call. split; [|split].
  - intros H. unfold call.
    destruct voltage_monitor as [| | | | | | | | |m|]; try done.
    by destruct (H m).
  - intros m -> H. unfold call.
    destruct current as [| | | | | | | | | |a]; try done.
    by destruct (H a).
  - unfold call. split.
    + intros H.
      destruct voltage_monitor as [| | | | | | | | |m|]; try (by left).
      destruct current as [| | | | | | | | | |a]; try (by right).
      by rewrite traces_not_assertion in H.
    + intros [H|H].
      * destruct voltage_monitor as [| | | | | | | | |m|]; try done.
        by destruct (H m).
      * destruct voltage_monitor as [| | | | | | | | |m|]; try done.
        destruct current as [| | | | | | | | | |a]; try done.
        by destruct (H a).
Qed.

(** ** The panels of [plot_voltage_and_current_traces] *)

Lemma py_getitem_0_head {A : Type} (l : list A) (a : A) :
  py_getitem l 0 = Ok a → head l = Some a.
Proof. destruct l as [|x l]; [done|]. by intros [= <-]. Qed.

Lemma py_getitem_m1_last {A : Type} (l : list A) (a : A) :
  py_getitem l (-1) = Ok a → last l = Some a.
Proof.
  unfold py_getitem. cbn zeta.
  replace ((-1 <? 0)%Z) with true by done. cbn iota.
  destruct (Z.of_nat (length l) + -1 <? 0)%Z eqn:E; [done|].
  apply Z.ltb_ge in E.
  replace (Z.to_nat (Z.of_nat (length l) + -1)) with (pred (length l)) by lia.
  rewrite last_lookup. destruct (l !! pred (length l)); by intros [= <-].
Qed.

(** The voltage panel and the calls on the figure, given the values of the
    intermediate calls that may raise. *)
Lemma traces_voltage_panel
    (vm : B2.StateMon) (cur : B2.TimedArr) (title : option string)
    (firing_threshold : option Q) (do_show_plot : bool) (legend_location : Z)
    (v0 : list Q) :
  B2.state_t vm ≠ [] → B2.getitem_v vm 0 = Ok v0 → v0 ≠ [] →
  ∃ fig vmax vmin t_first t_last,
    plot_voltage_and_current_traces (StateMonitor vm) (TimedArray cur) title
      firing_threshold do_show_plot legend_location = Ok fig ∧
    py_max v0 = Ok vmax ∧ py_min v0 = Ok vmin ∧
    head (B2.state_t vm) = Some t_first ∧ last (B2.state_t vm) = Some t_last ∧
    on_figure fig =
      match title with Some s => [Suptitle s] | None => [] end
      ++ (if do_show_plot then [Show] else []) ∧
    ∀ top, top = match firing_threshold with
                 | Some thr => py_max2 vmax thr
                 | None => vmax
                 end →
      axis_v fig =
        Plot ((λ t, t / B2.ms) <$> B2.state_t vm) ((λ v, v / B2.mV) <$> v0)
             "" (Some 2)
        :: match firing_threshold with
           | Some thr => [Plot [t_first / B2.ms; t_last / B2.ms]
                               [thr / B2.mV; thr / B2.mV] "r--" (Some 2)]
           | None => []
           end
        ++ [Ylim ((vmin - (5 # 100) * (top - vmin)) / B2.mV)
                 ((top + (5 # 100) * (top - vmin)) / B2.mV);
            Xlabel "t [ms]";
            Ylabel "membrane voltage [mV]\n min: {0}\n max: {1}" [vmin; top];
            Grid]
        ++ match firing_threshold with
           | Some _ => [Legend ["vm"; "firing threshold"] legend_location]
           | None => []
           end.
Proof.
  intros Ht Hv0 Hne.
  destruct (py_max_spec (B2.call cur <$> B2.state_t vm))
    as (cmax & Hcmax & _); [by destruct (B2.state_t vm)|].
  destruct (py_min_spec (B2.call cur <$> B2.state_t vm))
    as (cmin & Hcmin & _); [by destruct (B2.state_t vm)|].
  destruct (py_max_spec v0 Hne) as (vmax & Hvmax & _).
  destruct (py_min_spec v0 Hne) as (vmin & Hvmin & _).
  destruct (py_getitem_first ((λ t, t / B2.ms) <$> B2.state_t vm))
    as [t0 Ht0]; [by destruct (B2.state_t vm)|].
  destruct (py_getitem_last ((λ t, t / B2.ms) <$> B2.state_t vm))
    as [t1 Ht1]; [by destruct (B2.state_t vm)|].
  pose proof (py_getitem_0_head _ _ Ht0) as Hhead.
  pose proof (py_getitem_m1_last _ _ Ht1) as Hlast.
  rewrite head_lookup, list_lookup_fmap, <- head_lookup in Hhead.
  rewrite fmap_last in Hlast.
  destruct (head (B2.state_t vm)) as [tf|]; [|done].
  destruct (last (B2.state_t vm)) as [tl|]; [|done].
  injection Hhead as <-. injection Hlast as <-.
  unfold plot_voltage_and_current_traces.
  rewrite Hcmax; cbn [mbind result_bind].
  rewrite Hcmin; cbn [mbind result_bind].
  rewrite Hv0; cbn [mbind result_bind].
  rewrite Hvmax, Hvmin.
  destruct firing_threshold as [thr|].
  - rewrite Ht0; cbn [mbind result_bind]. rewrite Ht1; cbn [mbind result_bind].
    eexists _, vmax, vmin, tf, tl.
    split; [reflexivity|]. split; [done|]. split; [done|].
    split; [done|]. split; [done|]. cbn [on_figure axis_v]. split.
    + destruct title, do_show_plot; by rewrite ?app_nil_r.
    + intros top ->. by rewrite <- !app_assoc.
  - cbn [mbind result_bind].
    eexists _, vmax, vmin, tf, tl.
    split; [reflexivity|]. split; [done|]. split; [done|].
    split; [done|]. split; [done|]. cbn [on_figure axis_v]. split.
    + destruct title, do_show_plot; by rewrite ?app_nil_r.
    + intros top ->. by rewrite app_nil_r.
Qed.

Lemma div_mV_between (lo v hi : Q) :
  lo <= v → v <= hi → lo / B2.mV <= v / B2.mV ∧ v / B2.mV <= hi / B2.mV.
Proof. intros H1 H2. split; by apply div_mV_le. Qed.

(** X3: the y-range of the voltage panel, with or without a threshold,
    holds every sample of the plotted trace (in mV) and is never inverted;
    without a threshold a constant trace leaves it with zero width, as the
    limits are set unconditionally. *)
Theorem X3_voltage_range_covers_trace
    (vm : B2.StateMon) (cur : B2.TimedArr) (title : option string)
    (firing_threshold : option Q) (do_show_plot : bool) (legend_location : Z)
    (v0 : list Q) :
  B2.state_t vm ≠ [] → B2.getitem_v vm 0 = Ok v0 → v0 ≠ [] →
  ∃ fig lo hi,
    plot_voltage_and_current_traces (StateMonitor vm) (TimedArray cur) title
      firing_threshold do_show_plot legend_location = Ok fig ∧
    get_ylim (axis_v fig) = Some (lo, hi) ∧
    lo <= hi ∧
    Forall (λ v, lo <= v / B2.mV ∧ v / B2.mV <= hi) v0 ∧
    (firing_threshold = None →
       (∀ v v', v ∈ v0 → v' ∈ v0 → v == v') → lo == hi).
Proof.
  intros Ht Hv0 Hne.
  destruct (traces_voltage_panel vm cur title firing_threshold do_show_plot
              legend_location v0 Ht Hv0 Hne)
    as (fig & vmax & vmin & tf & tl & Hfig & Hvmax & Hvmin & _ & _ & _ & Hv).
  specialize (Hv _ eq_refl).
  set (top := match firing_threshold with
              | Some thr => py_max2 vmax thr
              | None => vmax
              end) in *.
  pose proof (py_min_le_max _ _ _ Hvmin Hvmax) as Hle.
  apply py_max_Ok_spec in Hvmax as [Hmax_in Hmax].
  apply py_min_Ok_spec in Hvmin as [Hmin_in Hmin].
  assert (Htop : vmax <= top).
  { unfold top. destruct firing_threshold as [thr|]; [|lra].
    destruct (py_max2_cases vmax thr) as [[-> H]|[-> H]]; lra. }
  exists fig, ((vmin - (5 # 100) * (top - vmin)) / B2.mV),
    ((top + (5 # 100) * (top - vmin)) / B2.mV).
  split; [done|]. split.
  { rewrite Hv. by destruct firing_threshold. }
  split; [apply div_mV_le; lra|]. split.
  - rewrite Forall_forall in Hmax, Hmin. apply Forall_forall. intros v Hin.
    specialize (Hmax v Hin). specialize (Hmin v Hin).
    apply div_mV_between; lra.
  - intros Hnone Hconst. unfold top. rewrite Hnone.
    assert (vmax == vmin) by (apply Hconst; by apply list_elem_of_In).
    unfold Qdiv. apply Qmult_comp; [lra|reflexivity].
Qed.

Lemma X3_voltage_range_covers_trace_witness :
  ∃ fig lo hi,
    plot_voltage_and_current_traces (StateMonitor trace_0_to_10mV)
      (TimedArray ramp_current) None None false 1 = Ok fig ∧
    get_ylim (axis_v fig) = Some (lo, hi) ∧
    lo <= 0 ∧ 10 <= hi.
Proof.
  destruct (X3_voltage_range_covers_trace trace_0_to_10mV ramp_current None
              None false 1 [0; 10 # 1000; 5 # 1000])
    as (fig & lo & hi & Hfig & Hlim & _ & Hall & _); [done|done|done|].
  exists fig, lo, hi. split; [done|]. split; [done|].
  apply Forall_cons in Hall as [[H0 _] Hall].
  apply Forall_cons in Hall as [[_ H10] _].
  split.
  - apply (Qle_trans _ _ _ H0). unfold Qle. simpl. lia.
  - refine (Qle_trans _ _ _ _ H10). unfold Qle. simpl. lia.
Defined.

(** X4: whenever y-limits are set on the current panel, every sampled value
    of the current (in A) lies strictly inside them. *)
Theorem X4_current_range_covers_samples
    (vm : B2.StateMon) (cur : B2.TimedArr) (title : option string)
    (firing_threshold : option Q) (do_show_plot : bool) (legend_location : Z)
    (v0 : list Q) :
  B2.state_t vm ≠ [] → B2.getitem_v vm 0 = Ok v0 → v0 ≠ [] →
  ∃ fig,
    plot_voltage_and_current_traces (StateMonitor vm) (TimedArray cur) title
      firing_threshold do_show_plot legend_location = Ok fig ∧
    ∀ lo hi, get_ylim (axis_c fig) = Some (lo, hi) →
      Forall (λ t, lo < B2.call cur t / B2.amp ∧ B2.call cur t / B2.amp < hi)
             (B2.state_t vm).
Proof.
  intros Ht Hv0 Hne.
  destruct (py_max_spec (B2.call cur <$> B2.state_t vm))
    as (cmax & Hcmax & _ & Hmax); [by destruct (B2.state_t vm)|].
  destruct (py_min_spec (B2.call cur <$> B2.state_t vm))
    as (cmin & Hcmin & _ & Hmin); [by destruct (B2.state_t vm)|].
  destruct (py_max_spec v0 Hne) as (vmax & Hvmax & _).
  destruct (py_min_spec v0 Hne) as (vmin & Hvmin & _).
  destruct (traces_returns vm cur title firing_threshold do_show_plot
              legend_location v0 cmax cmin vmax vmin Ht Hcmax Hcmin Hv0 Hvmax Hvmin)
    as (fig & _ & _ & Hfig & Hc & _).
  exists fig. split; [done|]. rewrite Hc. cbn zeta.
  rewrite Forall_fmap in Hmax, Hmin.
  destruct (py_gt ((105 # 100) * (cmax - cmin)) 0) eqn:E; [|done].
  apply py_gt_true in E. intros lo hi [= <- <-].
  rewrite Forall_forall in Hmax, Hmin. apply Forall_forall. intros t Hin.
  specialize (Hmax t Hin). specialize (Hmin t Hin). cbn in Hmax, Hmin.
  split; apply div_amp_lt; lra.
Qed.

Lemma X4_current_range_covers_samples_witness :
  ∃ fig lo hi,
    plot_voltage_and_current_traces (StateMonitor trace_0_to_10mV)
      (TimedArray ramp_current) None None false 1 = Ok fig ∧
    get_ylim (axis_c fig) = Some (lo, hi) ∧
    lo < 0 ∧ 2 # 1000000000 < hi.
Proof.
  destruct (X4_current_range_covers_samples trace_0_to_10mV ramp_current None
              None false 1 [0; 10 # 1000; 5 # 1000])
    as (fig & Hfig & Hall); [done|done|done|].
  vm_compute in Hfig. injection Hfig as <-.
  eexists _, _, _. split; [vm_compute; reflexivity|]. split; [reflexivity|].
  specialize (Hall _ _ eq_refl).
  apply Forall_cons in Hall as [[H0 _] Hall].
  apply Forall_cons in Hall as [_ Hall].
  apply Forall_cons in Hall as [[_ H2] _].
  split.
  - apply (Qlt_le_trans _ _ _ H0). unfold Qle. simpl. lia.
  - refine (Qle_lt_trans _ _ _ _ H2). unfold Qle. simpl. lia.
Defined.

(** X5: the voltage panel draws the trace of neuron 0 and, when a threshold
    is given, one dashed line at the threshold (in mV) from the first to the
    last time stamp of the monitor; without a threshold there is neither
    that line nor a legend.  On the figure, [show] is called exactly when
    [do_show_plot] holds and the title is set exactly when one is given. *)
Theorem X5_threshold_line_and_figure_calls
    (vm : B2.StateMon) (cur : B2.TimedArr) (title : option string)
    (firing_threshold : option Q) (do_show_plot : bool) (legend_location : Z)
    (v0 : list Q) :
  B2.state_t vm ≠ [] → B2.getitem_v vm 0 = Ok v0 → v0 ≠ [] →
  ∃ fig t_first t_last,
    plot_voltage_and_current_traces (StateMonitor vm) (TimedArray cur) title
      firing_threshold do_show_plot legend_location = Ok fig ∧
    head (B2.state_t vm) = Some t_first ∧
    last (B2.state_t vm) = Some t_last ∧
    let trace := ((λ t, t / B2.ms) <$> B2.state_t vm,
                  (λ v, v / B2.mV) <$> v0, "") in
    (∀ thr, firing_threshold = Some thr →
       lines (axis_v fig) =
         [trace;
          ([t_first / B2.ms; t_last / B2.ms], [thr / B2.mV; thr / B2.mV], "r--")]) ∧
    (firing_threshold = None →
       lines (axis_v fig) = [trace] ∧
       ∀ labels loc, ¬ In (Legend labels loc) (axis_v fig)) ∧
    (In Show (on_figure fig) ↔ do_show_plot = true) ∧
    (∀ s, In (Suptitle s) (on_figure fig) ↔ title = Some s).
Proof.
  intros Ht Hv0 Hne.
  destruct (traces_voltage_panel vm cur title firing_threshold do_show_plot
              legend_location v0 Ht Hv0 Hne)
    as (fig & vmax & vmin & tf & tl & Hfig & _ & _ & Hhead & Hlast & Hon & Hv).
  specialize (Hv _ eq_refl).
  exists fig, tf, tl. split; [done|]. split; [done|]. split; [done|].
  cbn zeta. split; [|split; [|split]].
  - intros thr ->. by rewrite Hv.
  - intros ->. rewrite Hv. split; [done|].
    intros labels loc Hin. cbn in Hin.
    destruct Hin as [Hin|[Hin|[Hin|[Hin|[Hin|[]]]]]]; discriminate.
  - rewrite Hon. destruct title, do_show_plot; cbn; split; intros H;
      try done; try tauto;
      repeat (destruct H as [H|H]; try discriminate); done.
  - intros s. rewrite Hon.
    destruct title as [s'|], do_show_plot; cbn; split; intros H;
      try discriminate;
      try (injection H as ->; tauto);
      repeat (destruct H as [H|H]; try discriminate; try (by injection H as ->));
      done.
Qed.

Lemma X5_threshold_line_and_figure_calls_witness :
  ∃ fig,
    plot_voltage_and_current_traces (StateMonitor trace_0_to_10mV)
      (TimedArray ramp_current) None (Some (20 # 1000)) false 1 = Ok fig ∧
    nth_error (lines (axis_v fig)) 1 =
      Some ([0 / B2.ms; (2 # 1000) / B2.ms],
            [(20 # 1000) / B2.mV; (20 # 1000) / B2.mV], "r--") ∧
    ¬ In Show (on_figure fig).
Proof.
  destruct (X5_threshold_line_and_figure_calls trace_0_to_10mV ramp_current
              None (Some (20 # 1000)) false 1 [0; 10 # 1000; 5 # 1000])
    as (fig & tf & tl & Hfig & Hhead & Hlast & Hthr & _ & Hshow & _);
    [done|done|done|].
  injection Hhead as <-. injection Hlast as <-.
  exists fig. split; [done|]. split.
  - by rewrite (Hthr _ eq_refl).
  - intros H. by apply Hshow in H.
Defined.

(** ** Spikes inside the window *)

Lemma where_lookup {A : Type} (p : A → bool) (rest : list A) : ∀ pre,
  Forall2 (λ i t, (pre ++ rest) !! i = Some t ∧ p t = true)
          (Np.select (p <$> rest) (seq (length pre) (length (p <$> rest))))
          (List.filter p rest).
Proof.
  induction rest as [|a rest IH]; intros pre; [constructor|].
  specialize (IH (pre ++ [a])).
  rewrite <- app_assoc, length_app, Nat.add_1_r in IH. simpl in *.
  destruct (p a) eqn:E; [|exact IH].
  constructor; [|exact IH]. split; [|done]. by apply list_lookup_middle.
Qed.

Lemma select_seq_sorted (mask : list bool) : ∀ a n,
  StronglySorted lt (Np.select mask (seq a n)) ∧
  Forall (λ i, a ≤ i)%nat (Np.select mask (seq a n)).
Proof.
  induction mask as [|b mask IH]; intros a n; [by split; constructor|].
  destruct n as [|n]; [by split; constructor|]. cbn [seq Np.select].
  destruct (IH (S a) n) as [Hs Hge].
  assert (Hge' : Forall (λ i, a ≤ i)%nat (Np.select mask (seq (S a) n))).
  { eapply Forall_impl; [exact Hge|]. intros i Hi. cbn in Hi. lia. }
  destruct b; [|done]. split.
  - constructor; [done|]. eapply Forall_impl; [exact Hge|]. intros i Hi.
    cbn in Hi. lia.
  - by constructor.
Qed.

Lemma where_elem_of (mask : list bool) : ∀ a i,
  i ∈ Np.select mask (seq a (length mask)) ↔
  (a ≤ i)%nat ∧ mask !! (i - a)%nat = Some true.
Proof.
  induction mask as [|b mask IH]; intros a i.
  - cbn. split; [by intros H%elem_of_nil|by intros [_ H]].
  - cbn [length seq Np.select].
    assert (Hrec : i ∈ Np.select mask (seq (S a) (length mask)) ↔
                   (S a ≤ i)%nat ∧ (b :: mask) !! (i - a)%nat = Some true).
    { rewrite IH. split; intros [Hle H]; (split; [done|]).
      - by replace (i - a)%nat with (S (i - S a)) by lia.
      - by replace (i - a)%nat with (S (i - S a)) in H by lia. }
    destruct b.
    + rewrite elem_of_cons, Hrec. split.
      * intros [->|[Hle H]]; [|split; [lia|done]].
        split; [lia|]. by rewrite Nat.sub_diag.
      * intros [Hle H]. destruct (decide (i = a)) as [->|Hne]; [by left|].
        right. split; [lia|done].
    + rewrite Hrec. split; intros [Hle H]; (split; [lia|done]) || idtac.
      destruct (decide (i = a)) as [->|Hne].
      * by rewrite Nat.sub_diag in H.
      * split; [lia|done].
Qed.

Lemma spikes_in_window_spec (t_min t_max : Q) (spike_train : list Q) :
  let ts := (λ t, t / B2.ms) <$> spike_train in
  let r := get_spike_train_ts_indices t_min t_max spike_train in
  r.2 = List.filter (in_window (t_min, t_max)) ts ∧
  Forall2 (λ i t, ts !! i = Some t ∧ t_min <= t ∧ t <= t_max) r.1 r.2 ∧
  StronglySorted lt r.1 ∧
  (∀ i t, ts !! i = Some t → t_min <= t → t <= t_max → i ∈ r.1) ∧
  (t_max < t_min → r = ([], [])).
Proof.
  intros ts r.
  assert (H2 : r.2 = List.filter (in_window (t_min, t_max)) ts)
    by apply spike_times_in_window.
  assert (Hall : Forall2 (λ i t, ts !! i = Some t ∧ t_min <= t ∧ t <= t_max)
                         r.1 r.2).
  { rewrite H2. unfold r, get_spike_train_ts_indices, Np.where_, Np.within.
    cbn [fst]. fold ts.
    eapply Forall2_impl; [apply (where_lookup (in_window (t_min, t_max)) ts [])|].
    intros i t [Hi Hp]. split; [done|].
    unfold in_window in Hp. apply andb_true_iff in Hp as [Hlo Hhi].
    by rewrite !Qle_bool_iff in *. }
  split; [done|]. split; [done|]. split; [|split].
  - unfold r, get_spike_train_ts_indices, Np.where_. cbn [fst].
    apply select_seq_sorted.
  - intros i t Hi Hlo Hhi.
    unfold r, get_spike_train_ts_indices, Np.where_, Np.within. cbn [fst].
    fold ts. apply where_elem_of. split; [lia|].
    rewrite Nat.sub_0_r, list_lookup_fmap, Hi. cbn.
    apply Qle_bool_iff in Hlo, Hhi. by rewrite Hlo, Hhi.
  - intros Hinv.
    assert (H2' : r.2 = []).
    { rewrite H2. clear -Hinv. induction ts as [|t ts IH]; [done|].
      cbn [List.filter]. destruct (in_window (t_min, t_max) t) eqn:E; [|done].
      unfold in_window in E. apply andb_true_iff in E as [Hlo Hhi].
      cbn [fst snd] in *. apply Qle_bool_iff in Hlo, Hhi. lra. }
    rewrite H2' in Hall. apply Forall2_nil_inv_r in Hall.
    destruct r as [idx tsp]. cbn [fst snd] in *. by rewrite Hall, H2'.
Qed.

(** X6: [get_spike_train_ts_indices] returns the spike times (in ms) that
    lie in the closed window, in their order, together with their positions
    in the train: the positions ascend strictly, each one points at the
    time returned beside it, and every spike inside the window has its
    position listed; an inverted window returns nothing. *)
Theorem X6_spikes_in_window (t_min t_max : Q) (spike_train : list Q) :
  let ts := (λ t, t / B2.ms) <$> spike_train in
  let r := get_spike_train_ts_indices t_min t_max spike_train in
  r.2 = List.filter (in_window (t_min, t_max)) ts ∧
  Forall2 (λ i t, ts !! i = Some t ∧ t_min <= t ∧ t <= t_max) r.1 r.2 ∧
  StronglySorted lt r.1 ∧
  (∀ i t, ts !! i = Some t → t_min <= t → t <= t_max → i ∈ r.1) ∧
  (t_max < t_min → r = ([], [])).
Proof. apply spikes_in_window_spec. Qed.

(** ** The shape of the derived window *)

(** X7: when the lower bound is derived, it is never negative and lies at
    most 100 ms below the upper bound; the window is well ordered as soon as
    the upper bound is not negative, and for a negative upper bound it is
    inverted, so that no spike of any train falls into it. *)
Theorem X7_derived_window_shape
    (rm : B2.RateMon) (t_max : option Q) (lo hi : Q) :
  default_interval rm None t_max = Ok (lo, hi) →
  0 <= lo ∧ hi - lo <= 100 ∧
  (0 <= hi → lo <= hi) ∧
  (hi < 0 → lo = 0 ∧
            ∀ spike_train, get_spike_train_ts_indices lo hi spike_train = ([], [])).
Proof.
  intros H. unfold default_interval in H.
  apply bind_Ok in H as (hi' & _ & H). injection H as <- <-.
  destruct (py_max2_cases 0 (hi' - 100)) as [[-> Hle]|[-> Hlt]].
  - split; [lra|]. split; [lra|]. split; [done|]. intros Hneg.
    split; [done|]. intros st.
    by apply (spikes_in_window_spec 0 hi' st).
  - split; [lra|]. split; [lra|]. split; [intros; lra|]. intros Hneg. lra.
Qed.

Lemma X7_derived_window_shape_witness :
  0 <= 600 # 4 ∧ (1000 # 4) - (600 # 4) <= 100 ∧ 600 # 4 <= 1000 # 4.
Proof.
  destruct (X7_derived_window_shape rate_250ms None (600 # 4) (1000 # 4) eq_refl)
    as (H0 & Hw & Hle & _).
  split; [exact H0|]. split; [exact Hw|]. apply Hle. vm_compute. discriminate.
Defined.

(** ** The exceptions of [plot_network_activity] *)

Lemma bind_Raise {A B : Type} (m : result A) (f : A → result B) (e : exn) :
  m ≫= f = Raise e → m = Raise e ∨ ∃ a, m = Ok a ∧ f a = Raise e.
Proof.
  destruct m as [a|e']; cbn [mbind result_bind]; intros H.
  - right. by exists a.
  - left. by injection H as ->.
Qed.

Lemma raises_only_bind {A B : Type} (P : exn → Prop)
    (m : result A) (f : A → result B) :
  raises_only P m → (∀ a, m = Ok a → raises_only P (f a)) →
  raises_only P (m ≫= f).
Proof.
  intros Hm Hf e H. apply bind_Raise in H as [H|(a & Ha & H)].
  - by apply Hm.
  - by apply (Hf a Ha).
Qed.

Lemma raises_only_Ok {A : Type} (P : exn → Prop) (a : A) : raises_only P (Ok a).
Proof. by intros e. Qed.

Lemma raises_only_impl {A : Type} (P Q : exn → Prop) (r : result A) :
  (∀ e, P e → Q e) → raises_only P r → raises_only Q r.
Proof. intros H Hr e He. apply H. by apply Hr. Qed.

Lemma py_getitem_raises_only {A : Type} (l : list A) (i : Z) :
  raises_only (eq IndexError) (py_getitem l i).
Proof. unfold py_getitem. intros e. by repeat case_match; intros [= <-]. Qed.

Lemma py_dict_getitem_raises_only {A : Type} (d : gmap Z A) (k : Z) :
  raises_only (eq KeyError) (py_dict_getitem d k).
Proof. unfold py_dict_getitem. intros e. by case_match; intros [= <-]. Qed.

Lemma getitem_mask_raises_only {A : Type} (x : list A) (mask : list bool) :
  raises_only (eq IndexError) (Np.getitem_mask x mask).
Proof. unfold Np.getitem_mask. intros e. by case_match; intros [= <-]. Qed.

Lemma getitem_v_raises_only (m : B2.StateMon) (idx : Z) :
  raises_only (eq IndexError) (B2.getitem_v m idx).
Proof. intros e H. symmetry. by eapply getitem_v_raises_IndexError. Qed.

Lemma default_interval_raises
    (rm : B2.RateMon) (t_min t_max : option Q) (e : exn) :
  default_interval rm t_min t_max = Raise e ↔
  e = ValueError ∧ t_max = None ∧ B2.rate_t rm = [].
Proof.
  unfold default_interval. split.
  - destruct t_max as [b|]; [done|].
    destruct (B2.rate_t rm) as [|t ts]; [by intros [= <-]|done].
  - by intros (-> & -> & ->).
Qed.

(** The raster loop fails exactly on a selected neuron without a spike
    train, and then with [KeyError]. *)
Lemma plot_raster_loop_raises
    (trains : gmap Z (list Q)) (t_min t_max : Q) (idxs : list Z) :
  ∀ c ax e,
    plot_raster_loop trains t_min t_max idxs c ax = Raise e ↔
    e = KeyError ∧ ∃ n, n ∈ idxs ∧ trains !! n = None.
Proof.
  induction idxs as [|n idxs IH]; intros c ax e.
  - split; [done|]. by intros (_ & n & H%elem_of_nil & _).
  - cbn [plot_raster_loop]. unfold py_dict_getitem.
    destruct (trains !! n) as [st|] eqn:Hn; cbn [mbind result_bind].
    + rewrite IH. split; intros (-> & m & Hm & Hnone); (split; [done|]).
      * exists m. split; [by right|done].
      * exists m. split; [|done].
        apply elem_of_cons in Hm as [->|Hm]; [congruence|done].
    + split.
      * intros [= <-]. split; [done|]. exists n. split; [by left|done].
      * by intros (-> & _).
Qed.

Lemma plot_raster_Ok_keys
    (trains : gmap Z (list Q)) (sel : list Z) (t_min t_max : Q) (ax ax' : axes) :
  plot_raster trains sel t_min t_max ax = Ok ax' →
  Forall (λ n, is_Some (trains !! n)) sel.
Proof.
  intros H. unfold plot_raster in H. apply bind_Ok in H as (r & Hr & _).
  apply Forall_forall. intros n Hn.
  destruct (trains !! n) as [st|] eqn:E; [by eexists|].
  assert (Hraise : plot_raster_loop trains t_min t_max sel 0%Z ax = Raise KeyError).
  { apply plot_raster_loop_raises. split; [done|]. by exists n. }
  congruence.
Qed.

Lemma py_getitem_Ok_elem_of {A : Type} (l : list A) (i : Z) (a : A) :
  py_getitem l i = Ok a → a ∈ l.
Proof.
  unfold py_getitem. cbn zeta.
  destruct ((if (i <? 0)%Z then (Z.of_nat (length l) + i)%Z else i) <? 0)%Z;
    [done|].
  destruct (l !! _) as [x|] eqn:E; [|done].
  intros [= <-]. by eapply list_elem_of_lookup_2.
Qed.

Lemma highlight_raster_loop_raises_only
    (trains : gmap Z (list Q)) (sel : list Z) (t_min t_max : Q) (rows : list Z) :
  Forall (λ n, is_Some (trains !! n)) sel →
  ∀ i ax,
    raises_only (eq IndexError)
      (highlight_raster_loop trains sel t_min t_max i rows ax).
Proof.
  intros Hsel. induction rows as [|r rows IH]; intros i ax; [by intros e|].
  cbn [highlight_raster_loop].
  apply raises_only_bind; [apply py_getitem_raises_only|]. intros n Hn.
  pose proof (py_getitem_Ok_elem_of _ _ _ Hn) as Hin.
  rewrite Forall_forall in Hsel. destruct (Hsel n Hin) as [st Hst].
  unfold py_dict_getitem. rewrite Hst. cbn [mbind result_bind]. apply IH.
Qed.

Lemma plot_voltage_traces_loop_raises_only
    (vm : B2.StateMon) (sel : list Z) (ts : list Q) (mask : list bool)
    (rows : list Z) :
  ∀ i ax,
    raises_only (eq IndexError)
      (plot_voltage_traces_loop vm sel ts mask i rows ax).
Proof.
  induction rows as [|r rows IH]; intros i ax; [by intros e|].
  cbn [plot_voltage_traces_loop].
  apply raises_only_bind; [apply py_getitem_raises_only|]. intros n _.
  apply raises_only_bind; [apply getitem_mask_raises_only|]. intros xs _.
  apply raises_only_bind; [apply getitem_v_raises_only|]. intros v _.
  apply raises_only_bind; [apply getitem_mask_raises_only|]. intros ys _.
  apply IH.
Qed.

Lemma population_activity_raises_only
    (rm : B2.RateMon) (t_min t_max : Q) (ax : axes) :
  raises_only (eq IndexError) (plot_population_activity rm t_min t_max ax).
Proof.
  unfold plot_population_activity.
  apply raises_only_bind; [apply getitem_mask_raises_only|]. intros xs _.
  apply raises_only_bind; [apply getitem_mask_raises_only|]. intros ys _.
  apply raises_only_Ok.
Qed.

(** What an exception of the body tells about the inputs. *)
Lemma network_activity_raise_cases
    (rm : B2.RateMon) (sm : B2.SpikeMon) (vm : option B2.StateMon)
    (idxs : option (list Z)) (t_min t_max : option Q) (N : Z) (e : exn) :
  network_activity rm sm vm idxs t_min t_max N = Raise e →
  let sel := select_spike_train_idx_list idxs vm (B2.spike_trains sm) in
  (e = ValueError ∧ t_max = None ∧ B2.rate_t rm = []) ∨
  (e = KeyError ∧ (t_max = None → B2.rate_t rm ≠ []) ∧
   ∃ n, n ∈ sel ∧ B2.spike_trains sm !! n = None) ∨
  (e = IndexError ∧ (t_max = None → B2.rate_t rm ≠ []) ∧
   Forall (λ n, is_Some (B2.spike_trains sm !! n)) sel).
Proof.
  intros H sel. unfold network_activity in H. cbn zeta in H. fold sel in H.
  apply bind_Raise in H as [H|(w & Hw & H)].
  { left. by apply default_interval_raises in H. }
  assert (Hrate : t_max = None → B2.rate_t rm ≠ []).
  { intros -> Hnil.
    assert (default_interval rm t_min None = Raise ValueError)
      by by apply default_interval_raises.
    congruence. }
  right.
  apply bind_Raise in H as [H|(ax_r & Hr & H)].
  { left. unfold plot_raster in H. apply bind_Raise in H as [H|(r & _ & H)]; [|done].
    apply plot_raster_loop_raises in H as [-> Hmiss]. done. }
  right. pose proof (plot_raster_Ok_keys _ _ _ _ _ _ Hr) as Hkeys.
  split; [|done]. symmetry.
  apply bind_Raise in H as [H|(ax_p & _ & H)].
  { by apply population_activity_raises_only in H. }
  apply bind_Raise in H as [H|(ax_h & _ & H)].
  { destruct (0 <? N)%Z; [|done]. unfold highlight_raster in H.
    apply bind_Raise in H as [H|(ax' & _ & H)]; [|done].
    by apply highlight_raster_loop_raises_only in H. }
  destruct vm as [m|]; [|done].
  apply bind_Raise in H as [H|(ax_v & _ & H)]; [|done].
  unfold plot_voltage_traces in H.
  by apply plot_voltage_traces_loop_raises_only in H.
Qed.



(** X9: once the arguments have passed the assertions, the call raises
    [KeyError] exactly when the interval can be derived and some selected
    neuron has no spike train in the spike monitor. *)
Theorem X9_missing_spike_train
    (rm : B2.RateMon) (sm : B2.SpikeMon) (voltage_monitor : pyval)
    (spike_train_idx_list : pyval) (t_min t_max : option Q) (N : Z)
    (vm : option B2.StateMon) (idxs : option (list Z)) :
  optional_StateMonitor voltage_monitor = Some vm →
  optional_list spike_train_idx_list = Some idxs →
  (plot_network_activity (PopulationRateMonitor rm) (SpikeMonitor sm)
     voltage_monitor spike_train_idx_list t_min t_max N = Raise KeyError
   ↔ (t_max = None → B2.rate_t rm ≠ []) ∧
     ∃ n, n ∈ select_spike_train_idx_list idxs vm (B2.spike_trains sm) ∧
          B2.spike_trains sm !! n = None).
Proof.
  intros Hvm Hidx. unfold plot_network_activity. rewrite Hvm, Hidx. split.
  - intros H. apply network_activity_raise_cases in H
      as [(H & _)|[(_ & H)|(H & _)]]; done.
  - intros [Hrate Hmiss]. unfold network_activity. cbn zeta.
    destruct (default_interval_returns rm t_min t_max Hrate) as [w ->].
    cbn [mbind result_bind]. unfold plot_raster.
    assert (plot_raster_loop (B2.spike_trains sm) w.1 w.2
              (select_spike_train_idx_list idxs vm (B2.spike_trains sm)) 0%Z []
            = Raise KeyError) as ->
      by by apply plot_raster_loop_raises.
    done.
Qed.

Lemma X9_missing_spike_train_witness :
  plot_network_activity (PopulationRateMonitor rate_250ms)
    (SpikeMonitor five_trains) PyNone (PyList [1; 7]%Z) None None 0
  = Raise KeyError.
Proof.
  apply (X9_missing_spike_train rate_250ms five_trains PyNone (PyList [1; 7]%Z)
           None None 0 None (Some [1; 7]%Z) eq_refl eq_refl).
  split; [done|]. exists 7%Z. split; [|done].
  apply list_elem_of_In. simpl. tauto.
Defined.

(** ** When [plot_network_activity] returns *)

Lemma population_activity_Ok_length
    (rm : B2.RateMon) (t_min t_max : Q) (ax ax' : axes) :
  plot_population_activity rm t_min t_max ax = Ok ax' →
  length (B2.smooth_rate rm "flat" ((5 # 10) * B2.ms)) = length (B2.rate_t rm).
Proof.
  unfold plot_population_activity. intros H.
  apply bind_Ok in H as (xs & _ & H). apply bind_Ok in H as (ys & Hys & _).
  unfold Np.getitem_mask, Np.within in Hys. rewrite !length_fmap in Hys.
  destruct (length (B2.rate_t rm) =? _)%nat eqn:E; [|done].
  by apply Nat.eqb_eq in E.
Qed.








(** ** The order of the highlighted rows *)




(** ** The raster panel *)




(** ** The population-rate panel *)

Lemma select_zip {A : Type} (p : Q → bool) (ts : list Q) : ∀ ys : list A,
  length ts = length ys →
  zip (Np.select (p <$> ts) ts) (Np.select (p <$> ts) ys)
  = List.filter (λ q, p q.1) (zip ts ys).
Proof.
  induction ts as [|t ts IH]; intros [|y ys] Hlen; try done.
  injection Hlen as Hlen. specialize (IH ys Hlen). cbn in *.
  destruct (p t); cbn; by rewrite IH.
Qed.

Lemma select_length {A B : Type} (mask : list bool) : ∀ (x : list A) (y : list B),
  length x = length y →
  length (Np.select mask x) = length (Np.select mask y).
Proof.
  induction mask as [|b mask IH]; intros [|a x] [|c y] Hlen; try done.
  injection Hlen as Hlen. cbn. destruct b; cbn; by rewrite (IH x y).
Qed.

(** X14: when the call returns, the rate panel shows a single curve: the
    points (time stamp in ms, smoothed rate in Hz) of the rate monitor whose
    time stamp lies in the window, in their order, where the rates are those
    of [smooth_rate] with a flat window of 0.5 ms; the raw rates are not
    drawn. *)
Theorem X14_rate_panel
    (rm : B2.RateMon) (sm : B2.SpikeMon) (voltage_monitor : pyval)
    (spike_train_idx_list : pyval) (t_min t_max : option Q) (N : Z)
    (vm : option B2.StateMon) (idxs : option (list Z)) (fig : figure) :
  optional_StateMonitor voltage_monitor = Some vm →
  optional_list spike_train_idx_list = Some idxs →
  plot_network_activity (PopulationRateMonitor rm) (SpikeMonitor sm)
    voltage_monitor spike_train_idx_list t_min t_max N = Ok fig →
  let ts := (λ t, t / B2.ms) <$> B2.rate_t rm in
  let smoothed :=
    (λ r, r / B2.Hz) <$> B2.smooth_rate rm "flat" ((5 # 10) * B2.ms) in
  ∃ w xs ys,
    default_interval rm t_min t_max = Ok w ∧
    lines (ax_rate fig) = [(xs, ys, "")] ∧
    length ts = length smoothed ∧
    length xs = length ys ∧
    xs = List.filter (in_window w) ts ∧
    zip xs ys = List.filter (λ p, in_window w p.1) (zip ts smoothed).
Proof.
  intros Hvm Hidx H ts smoothed.
  unfold plot_network_activity in H. rewrite Hvm, Hidx in H.
  unfold network_activity in H. cbn zeta in H.
  apply bind_Ok in H as (w & Hw & H).
  apply bind_Ok in H as (ax_r & _ & H).
  apply bind_Ok in H as (ax_p & Hp & H).
  apply bind_Ok in H as (ax_h & _ & H).
  assert (Hlines : lines (ax_rate fig) = lines ax_p).
  { destruct vm as [m|].
    - apply bind_Ok in H as (ax_v & _ & H). by injection H as <-.
    - injection H as <-. cbn [ax_rate]. by rewrite lines_app, app_nil_r. }
  pose proof (population_activity_Ok_length _ _ _ _ _ Hp) as Hlen.
  unfold plot_population_activity in Hp. fold ts smoothed in Hp.
  apply bind_Ok in Hp as (xs & Hxs & Hp). apply bind_Ok in Hp as (ys & Hys & Hp).
  injection Hp as <-.
  apply getitem_mask_Ok in Hxs, Hys.
  assert (Hlen' : length ts = length smoothed).
  { unfold ts, smoothed. by rewrite !length_fmap. }
  exists w, xs, ys. split; [done|]. split; [by rewrite Hlines|].
  split; [done|]. subst xs ys. unfold Np.within.
  split; [by apply select_length|]. split.
  - apply (select_filter (in_window w)).
  - by apply (select_zip (in_window w)).
Qed.

Lemma X14_rate_panel_witness :
  ∃ fig,
    plot_network_activity (PopulationRateMonitor rate_250ms)
      (SpikeMonitor five_trains) PyNone PyNone None None 0 = Ok fig ∧
    ∃ xs ys, lines (ax_rate fig) = [(xs, ys, "")] ∧ length xs = length ys.
Proof.
  destruct (plot_network_activity (PopulationRateMonitor rate_250ms)
              (SpikeMonitor five_trains) PyNone PyNone None None 0)
    as [fig|e] eqn:Hcall; [|vm_compute in Hcall; discriminate].
  destruct (X14_rate_panel rate_250ms five_trains PyNone PyNone None None 0
              None None fig eq_refl eq_refl Hcall)
    as (w & xs & ys & _ & Hl & _ & Hlen & _).
  exists fig. split; [done|]. by exists xs, ys.
Defined.

(** ** The cutoff of the ISI histogram *)

Lemma filter_sublist_mono {A : Type} (p q : A → bool) (l : list A) :
  (∀ x, p x = true → q x = true) →
  List.filter p l `sublist_of` List.filter q l.
Proof.
  intros H. induction l as [|a l IH]; [constructor|]. cbn.
  destruct (p a) eqn:E.
  - rewrite (H a E). by constructor.
  - destruct (q a); [by constructor|done].
Qed.

Lemma filter_all {A : Type} (p : A → bool) (l : list A) :
  Forall (λ x, p x = true) l → List.filter p l = l.
Proof.
  induction 1 as [|a l Ha _ IH]; [done|]. cbn. by rewrite Ha, IH.
Qed.

(** X15: the histogram gets one data set, a sublist of the intervals in ms;
    raising the cutoff only adds intervals, never removes or reorders them;
    a cutoff that no interval exceeds shows them all; and an interval equal
    to the cutoff is shown. *)
Theorem X15_isi_cutoff
    (get_spike_train_stats : B2.SpikeMon → SpikeTrainStats)
    (spike_monitor : B2.SpikeMon) (hist_nr_bins : Z) (c1 c2 : Q) :
  c1 <= c2 →
  let isi_ms := (λ d, d / B2.ms) <$> all_ISI (get_spike_train_stats spike_monitor) in
  ∃ d1 d2,
    hist_data (plot_ISI_distribution get_spike_train_stats spike_monitor
                 hist_nr_bins c1) = [d1] ∧
    hist_data (plot_ISI_distribution get_spike_train_stats spike_monitor
                 hist_nr_bins c2) = [d2] ∧
    d1 `sublist_of` d2 ∧
    d2 `sublist_of` isi_ms ∧
    (Forall (λ x, x <= c2 / B2.ms) isi_ms → d2 = isi_ms) ∧
    (∀ x, In x isi_ms → x == c2 / B2.ms → In x d2).
Proof.
  intros Hc isi_ms.
  exists (List.filter (λ d, Qle_bool d (c1 / B2.ms)) isi_ms),
         (List.filter (λ d, Qle_bool d (c2 / B2.ms)) isi_ms).
  split; [|split; [|split; [|split; [|split]]]].
  - unfold plot_ISI_distribution. fold isi_ms. cbn [hist_data].
    by rewrite where_positions.
  - unfold plot_ISI_distribution. fold isi_ms. cbn [hist_data].
    by rewrite where_positions.
  - apply filter_sublist_mono. intros x Hx.
    apply Qle_bool_iff in Hx. apply Qle_bool_iff.
    apply Qle_trans with (c1 / B2.ms); [done|].
    unfold Qdiv. by apply Qmult_le_compat_r.
  - rewrite <- (filter_all (λ _, true) isi_ms) at 2.
    + by apply filter_sublist_mono.
    + by apply Forall_forall.
  - intros Hall. apply filter_all.
    eapply Forall_impl; [exact Hall|]. intros x Hx. by apply Qle_bool_iff.
  - intros x Hin Hx. apply filter_In. split; [done|].
    apply Qle_bool_iff. rewrite Hx. apply Qle_refl.
Qed.

Lemma X15_isi_cutoff_witness :
  ∃ d1 d2,
    hist_data (plot_ISI_distribution
                 (λ _, {| all_ISI := [1 # 1000; 150 # 1000]; CV := 1 |})
                 five_trains 50 (100 # 1000)) = [d1] ∧
    hist_data (plot_ISI_distribution
                 (λ _, {| all_ISI := [1 # 1000; 150 # 1000]; CV := 1 |})
                 five_trains 50 (150 # 1000)) = [d2] ∧
    d1 `sublist_of` d2 ∧ length d2 = 2%nat.
Proof.
  destruct (X15_isi_cutoff
              (λ _, {| all_ISI := [1 # 1000; 150 # 1000]; CV := 1 |})
              five_trains 50 (100 # 1000) (150 # 1000))
    as (d1 & d2 & H1 & H2 & Hsub & _ & Hall & _).
  { unfold Qle. simpl. lia. }
  exists d1, d2. split; [done|]. split; [done|]. split; [done|].
  rewrite Hall; [done|].
  repeat constructor; unfold Qle; simpl; lia.
Defined.

(** ** The order of the assertions of [plot_network_activity] *)

(** X16: the four arguments are checked in the order rate monitor, spike
    monitor, voltage monitor, index list, and the first one of the wrong
    type decides the message; the call raises no [AssertionError] exactly
    when the first two are monitors of their types, the voltage monitor is
    [None] or a [StateMonitor], and the index list is [None] or a [list]. *)
Theorem X16_network_validation_order
    (rate_monitor spike_monitor voltage_monitor spike_train_idx_list : pyval)
    (t_min t_max : option Q) (N : Z) :
  let call := plot_network_activity rate_monitor spike_monitor voltage_monitor
                spike_train_idx_list t_min t_max N in
  ((∀ m, rate_monitor ≠ PopulationRateMonitor m) →
     call = Raise (AssertionError
                     "rate_monitor  is not of type PopulationRateMonitor")) ∧
  (∀ rm, rate_monitor = PopulationRateMonitor rm →
     (∀ m, spike_monitor ≠ SpikeMonitor m) →
     call = Raise (AssertionError "spike_monitor is not of type SpikeMonitor")) ∧
  (∀ rm sm, rate_monitor = PopulationRateMonitor rm →
     spike_monitor = SpikeMonitor sm →
     optional_StateMonitor voltage_monitor = None →
     call = Raise (AssertionError "voltage_monitor is not of type StateMonitor")) ∧
  (is_assertion_error call = false ↔
     ∃ rm sm vm idxs,
       rate_monitor = PopulationRateMonitor rm ∧
       spike_monitor = SpikeMonitor sm ∧
       optional_StateMonitor voltage_monitor = Some vm ∧
       optional_list spike_train_idx_list = Some idxs).
Proof.
  intros call. unfold call, plot_network_activity.
  split; [|split; [|split]].
  - intros H. destruct rate_monitor as [| | | | | | |m| | |]; try done.
    by destruct (H m).
  - intros rm -> H. destruct spike_monitor as [| | | | | | | |m| |]; try done.
    by destruct (H m).
  - intros rm sm -> -> H. by rewrite H.
  - split.
    + intros H.
      destruct rate_monitor as [| | | | | | |rm| | |]; try done.
      destruct spike_monitor as [| | | | | | | |sm| |]; try done.
      destruct (optional_StateMonitor voltage_monitor) as [vm|]; [|done].
      destruct (optional_list spike_train_idx_list) as [idxs|]; [|done].
      by exists rm, sm, vm, idxs.
    + intros (rm & sm & vm & idxs & -> & -> & -> & ->).
      apply network_activity_not_assertion.
Qed.

(** ** The derived selection does not depend on the order of its source *)



(** ** Voltage traces of neurons that were not recorded *)

Lemma getitem_v_unrecorded (vm : B2.StateMon) (n : Z) :
  n ∉ B2.record vm → B2.getitem_v vm n = Raise IndexError.
Proof.
  intros Hn. unfold B2.getitem_v.
  destruct (list_find (λ r, r = n) (B2.record vm)) as [[pos r]|] eqn:E; [|done].
  apply list_find_Some in E as (Hpos & -> & _).
  destruct Hn. by eapply list_elem_of_lookup_2.
Qed.

(** X18: with a voltage monitor, no highlighting and an explicit list whose
    neurons all have spike trains, a listed neuron that the voltage monitor
    has not recorded makes the call raise [IndexError], provided the
    interval can be derived and the smoothed rates align. *)
Theorem X18_unrecorded_neuron
    (rm : B2.RateMon) (sm : B2.SpikeMon) (vm : B2.StateMon) (l : list Z)
    (t_min t_max : option Q) (n : Z) :
  (t_max = None → B2.rate_t rm ≠ []) →
  length (B2.smooth_rate rm "flat" ((5 # 10) * B2.ms)) = length (B2.rate_t rm) →
  Forall (λ k, is_Some (B2.spike_trains sm !! k)) l →
  n ∈ l → n ∉ B2.record vm →
  plot_network_activity (PopulationRateMonitor rm) (SpikeMonitor sm)
    (StateMonitor vm) (PyList l) t_min t_max 0 = Raise IndexError.
Proof.
  intros Hrate Hsmooth Hkeys Hn Hrec.
  unfold plot_network_activity. cbn [optional_StateMonitor optional_list].
  unfold network_activity. cbn [select_spike_train_idx_list]. cbn zeta.
  destruct (default_interval_returns rm t_min t_max Hrate) as [w ->].
  cbn [mbind result_bind]. unfold plot_raster.
  destruct (plot_raster_loop_returns _ w.1 w.2 _ Hkeys 0%Z []) as [[cnt ax0] ->].
  cbn [mbind result_bind fst snd].
  destruct (population_activity_returns rm w.1 w.2 [] Hsmooth) as [ax_p ->].
  cbn [mbind result_bind Z.ltb Z.eqb Z.compare].
  unfold plot_voltage_traces.
  destruct (plot_voltage_traces_loop vm l _ _ 0 (py_range (length l)) [])
    as [ax_v|e] eqn:E.
  - apply plot_voltage_traces_loop_spec in E as (traces & Htr & _).
    pose proof (range_rows_are_selection vm l traces Htr) as Hsel.
    rewrite <- Hsel in Hn.
    apply list_elem_of_fmap in Hn as ([n' tr] & -> & Hin).
    apply list_elem_of_lookup in Hin as [i Hi].
    destruct (Forall2_lookup_r _ _ _ _ _ Htr Hi) as (r & _ & _ & Hget).
    cbn [fst snd] in *. by rewrite getitem_v_unrecorded in Hget.
  - apply plot_voltage_traces_loop_raises_only in E as <-. done.
Qed.

Lemma X18_unrecorded_neuron_witness :
  plot_network_activity (PopulationRateMonitor rate_250ms)
    (SpikeMonitor five_trains) (StateMonitor three_traces)
    (PyList [1; 5]%Z) None None 0 = Raise IndexError.
Proof.
  apply (X18_unrecorded_neuron rate_250ms five_trains three_traces [1; 5]%Z
           None None 5%Z); [done|reflexivity| | |].
  - repeat (apply Forall_cons; split; [by (vm_compute; eexists)|]).
    by apply Forall_nil.
  - apply list_elem_of_In. simpl. tauto.
  - intros H. apply list_elem_of_In in H. simpl in H.
    destruct H as [H|[H|[H|[]]]]; discriminate.
Defined.

(** ** A negative highlight count *)

(** X19: a negative highlight count highlights nothing and, with a voltage
    monitor, draws no voltage trace at all: when the call returns, the
    raster holds only scatter rows and its y-limits, and the voltage panel
    holds nothing but the label of the time axis.  (A count of 0 draws the
    traces of all selected neurons instead.) *)
Theorem X19_negative_highlight_count
    (rm : B2.RateMon) (sm : B2.SpikeMon) (vm : B2.StateMon)
    (spike_train_idx_list : pyval) (idxs : option (list Z))
    (t_min t_max : option Q) (N : Z) (fig : figure) :
  optional_list spike_train_idx_list = Some idxs →
  (N < 0)%Z →
  plot_network_activity (PopulationRateMonitor rm) (SpikeMonitor sm)
    (StateMonitor vm) spike_train_idx_list t_min t_max N = Ok fig →
  ax_voltage fig = Some [Xlabel "t [ms]"] ∧
  length (scatters (ax_raster fig)) =
    length (select_spike_train_idx_list idxs (Some vm) (B2.spike_trains sm)) ∧
  length (ax_raster fig) = S (length (scatters (ax_raster fig))).
Proof.
  intros Hidx HN H.
  unfold plot_network_activity in H. cbn [optional_StateMonitor] in H.
  rewrite Hidx in H. unfold network_activity in H. cbn zeta in H.
  replace (0 <? N)%Z with false in H by (symmetry; apply Z.ltb_ge; lia).
  replace (N =? 0)%Z with false in H by (symmetry; apply Z.eqb_neq; lia).
  apply bind_Ok in H as (w & Hw & H).
  apply bind_Ok in H as (ax_r & Hr & H).
  apply bind_Ok in H as (ax_p & _ & H).
  cbn [mbind result_bind plot_voltage_traces plot_voltage_traces_loop] in H.
  injection H as <-. cbn [ax_voltage ax_raster]. split; [done|].
  unfold plot_raster in Hr. apply bind_Ok in Hr as ([cnt ax0] & Hr & Hax).
  injection Hax as <-.
  apply (plot_raster_loop_spec _ w) in Hr as (_ & sts & Hsts & Hr).
  cbn [fst snd app] in *. subst ax0.
  rewrite scatters_app, !length_app, (scatters_raster_rows w sts 0), length_imap.
  apply Forall2_length in Hsts. cbn. lia.
Qed.

Lemma X19_negative_highlight_count_witness :
  ∃ fig,
    plot_network_activity (PopulationRateMonitor rate_250ms)
      (SpikeMonitor five_trains) (StateMonitor three_traces)
      PyNone None None (-1) = Ok fig ∧
    ax_voltage fig = Some [Xlabel "t [ms]"].
Proof.
  destruct (plot_network_activity (PopulationRateMonitor rate_250ms)
              (SpikeMonitor five_trains) (StateMonitor three_traces)
              PyNone None None (-1))
    as [fig|e] eqn:Hcall; [|vm_compute in Hcall; discriminate].
  destruct (X19_negative_highlight_count rate_250ms five_trains three_traces
              PyNone None None None (-1) fig eq_refl) as (Hv & _); [lia|done|].
  by exists fig.
Defined.

(** ** The extremes reported in the axis labels *)

(** X20: the y-label of the voltage panel is formatted with the minimum of
    the trace and with the value used as upper end of the range: the maximum
    of the trace without a threshold, but the larger of that maximum and the
    threshold when one is given, so that a threshold above the trace is
    reported as the maximum. *)
Theorem X20_voltage_label_extremes
    (vm : B2.StateMon) (cur : B2.TimedArr) (title : option string)
    (firing_threshold : option Q) (do_show_plot : bool) (legend_location : Z)
    (v0 : list Q) :
  B2.state_t vm ≠ [] → B2.getitem_v vm 0 = Ok v0 → v0 ≠ [] →
  ∃ fig vmax vmin reported,
    plot_voltage_and_current_traces (StateMonitor vm) (TimedArray cur) title
      firing_threshold do_show_plot legend_location = Ok fig ∧
    py_max v0 = Ok vmax ∧ py_min v0 = Ok vmin ∧
    In (Ylabel "membrane voltage [mV]\n min: {0}\n max: {1}" [vmin; reported])
       (axis_v fig) ∧
    (firing_threshold = None → reported = vmax) ∧
    (∀ thr, firing_threshold = Some thr →
       (thr <= vmax → reported = vmax) ∧ (vmax < thr → reported = thr)).
Proof.
  intros Ht Hv0 Hne.
  destruct (traces_voltage_panel vm cur title firing_threshold do_show_plot
              legend_location v0 Ht Hv0 Hne)
    as (fig & vmax & vmin & tf & tl & Hfig & Hvmax & Hvmin & _ & _ & _ & Hv).
  specialize (Hv _ eq_refl).
  exists fig, vmax, vmin,
    (match firing_threshold with
     | Some thr => py_max2 vmax thr
     | None => vmax
     end).
  split; [done|]. split; [done|]. split; [done|]. split; [|split].
  - rewrite Hv. destruct firing_threshold; cbn; tauto.
  - by intros ->.
  - intros thr ->.
    destruct (py_max2_cases vmax thr) as [[-> H]|[-> H]];
      split; intros; try done; lra.
Qed.

Lemma X20_voltage_label_extremes_witness :
  ∃ fig,
    plot_voltage_and_current_traces (StateMonitor trace_0_to_10mV)
      (TimedArray ramp_current) None (Some (20 # 1000)) false 1 = Ok fig ∧
    In (Ylabel "membrane voltage [mV]\n min: {0}\n max: {1}" [0; 20 # 1000])
       (axis_v fig).
Proof.
  destruct (X20_voltage_label_extremes trace_0_to_10mV ramp_current None
              (Some (20 # 1000)) false 1 [0; 10 # 1000; 5 # 1000])
    as (fig & vmax & vmin & reported & Hfig & Hmax & Hmin & Hin & _ & Hthr);
    [done|done|done|].
  vm_compute in Hmax, Hmin. injection Hmax as <-. injection Hmin as <-.
  destruct (Hthr _ eq_refl) as [_ Habove].
  rewrite Habove in Hin by (unfold Qlt; simpl; lia).
  by exists fig.
Defined.
